(** * 432 Hz converter: tuning detection, playback-rate resampling, orchestration

    A shallow embedding of [converter.py] and [commandconverter432.py].
    The two scripts share the candidate grid, [speed_change], [analyze_tone],
    [convert_to_432hz] and [batch_convert_directory]; they differ in the
    default bitrate and in how [main] cleans its download directory, which
    is modelled once per script in the modules [Converter] and
    [CommandConverter432].

    Numbers are modelled as the scripts have them: Python [int] is [Z],
    Python and numpy floats are IEEE binary64 values ([PrimFloat.float]),
    so that rounding is the machine's and not an idealisation. *)

From Stdlib Require Import ZArith QArith List String Ascii Floats Bool Lia.
From stdpp Require Import gmap strings.
Import ListNotations.
Set Warnings "-inexact-float".
Open Scope Z_scope.

(** ** Exceptions and results *)

(** The exceptions the scripts can meet.  [KeyboardInterrupt] and
    [SystemExit] derive from [BaseException] only: an
    [except Exception] clause does not catch them. *)
Inductive exn : Type :=
  | IndexError
  | KeyError
  | ZeroDivisionError
  | ValueError
  | OverflowError
  | OSError (what : string)
  | FileNotFoundError (path : string)
  | CouldntDecodeError
  | CouldntEncodeError
  | DownloadError
  | UnicodeEncodeError
  | KeyboardInterrupt
  | SystemExit.

Definition is_Exception (e : exn) : bool :=
  match e with
  | KeyboardInterrupt | SystemExit => false
  | _ => true
  end.

Inductive outcome (A : Type) : Type :=
  | Ok (a : A)
  | Raise (e : exn).
Arguments Ok {A} a.
Arguments Raise {A} e.

Definition bind {A B : Type} (x : outcome A) (k : A -> outcome B) : outcome B :=
  match x with
  | Ok a => k a
  | Raise e => Raise e
  end.

Notation "'let!' x ':=' c1 'in' c2" := (bind c1 (fun x => c2))
  (at level 10, x pattern, c1 at level 100, c2 at level 200).

(** ** Binary64 helpers *)

Module F64.

(** Python's [float(n)] for an [int]: the nearest binary64 value. *)
Definition of_Z (z : Z) : float :=
  SF2Prim (binary_normalize prec emax z 0 false).

(** Integer part of a finite value, rounded toward zero. *)
Definition SF_trunc (x : spec_float) : option Z :=
  match x with
  | S754_zero _ => Some 0
  | S754_finite s m e =>
      let a := Z.shiftl (Z.pos m) e in
      Some (if s then - a else a)
  | _ => None
  end.

(** Nearest integer, ties to even (C's [rint], numpy's [round]). *)
Definition SF_rint (x : spec_float) : option Z :=
  match x with
  | S754_zero _ => Some 0
  | S754_finite s m e =>
      let a :=
        if 0 <=? e then Z.shiftl (Z.pos m) e
        else
          let d := Z.shiftl 1 (- e) in
          let q := Z.shiftr (Z.pos m) (- e) in
          let r := Z.pos m - Z.shiftl q (- e) in
          match 2 * r ?= d with
          | Lt => q
          | Gt => q + 1
          | Eq => if Z.even q then q else q + 1
          end in
      Some (if s then - a else a)
  | _ => None
  end.

(** Least integer not below the value. *)
Definition SF_ceil (x : spec_float) : option Z :=
  match x with
  | S754_zero _ => Some 0
  | S754_finite s m e =>
      if 0 <=? e then
        let a := Z.shiftl (Z.pos m) e in Some (if s then - a else a)
      else
        let q := Z.shiftr (Z.pos m) (- e) in
        let r := Z.pos m - Z.shiftl q (- e) in
        Some (if s then - q else if r =? 0 then q else q + 1)
  | _ => None
  end.

(** The exact rational value of a finite float. *)
Definition SF_to_Q (x : spec_float) : Q :=
  match x with
  | S754_finite s m e =>
      let v := if 0 <=? e then inject_Z (Z.pos m * 2 ^ e)
               else Qmake (Z.pos m) (2 ^ Z.to_pos (- e)) in
      if s then Qopp v else v
  | _ => 0%Q
  end.

Definition to_Q (x : float) : Q := SF_to_Q (Prim2SF x).
Definition trunc (x : float) : option Z := SF_trunc (Prim2SF x).
Definition rint (x : float) : option Z := SF_rint (Prim2SF x).
Definition ceil (x : float) : option Z := SF_ceil (Prim2SF x).

End F64.

(** Python's [int(x)] on a float: truncation toward zero; [nan] raises
    [ValueError] and an infinity [OverflowError]. *)
Definition py_int (x : float) : outcome Z :=
  match F64.trunc x with
  | Some z => Ok z
  | None => if is_nan x then Raise ValueError else Raise OverflowError
  end.

(** Python's [a / b] on two [int]s: true division, [ZeroDivisionError] on
    a zero divisor.  For operands below 2^53, as sample rates and sample
    counts are, the result is the binary64 quotient of the two converted
    operands. *)
Definition py_truediv (a b : Z) : outcome float :=
  if b =? 0 then Raise ZeroDivisionError
  else Ok (F64.of_Z a / F64.of_Z b)%float.

(** [np.round(x).astype(int)] on one element: round half to even, then
    the conversion to a 64-bit integer, which yields the minimum integer
    when the value is not finite or does not fit. *)
Definition int64_min : Z := - 2 ^ 63.

Definition np_round_astype_int (x : float) : Z :=
  match F64.rint x with
  | Some z => if (int64_min <=? z) && (z <? 2 ^ 63) then z else int64_min
  | None => int64_min
  end.

(** ** The candidate grid *)

(** [np.arange(start, stop, step)] on floats: the length is
    [ceil((stop - start) / step)]; the first two elements are [start] and
    [start + step], and element [i] is [start + i * delta] where [delta]
    is the difference of the first two (numpy's documented fill rule). *)
Definition np_arange (start stop step : float) : list float :=
  match F64.ceil ((stop - start) / step)%float with
  | Some len =>
      let next := (start + step)%float in
      let delta := (next - start)%float in
      map (fun i : nat =>
             match i with
             | O => start
             | S O => next
             | _ => (start + F64.of_Z (Z.of_nat i) * delta)%float
             end)
          (seq 0 (Z.to_nat len))
  | None => []
  end.

(** The 440 Hz ladder: 9 octaves of 12 semitones. *)
Definition tone_freq : list float :=
  [ 16.35; 17.32; 18.35; 19.45; 20.6; 21.83; 23.12; 24.5; 25.96; 27.5; 29.14; 30.87;
    32.7; 34.65; 36.71; 38.89; 41.2; 43.65; 46.25; 49; 51.91; 55; 58.27; 61.74;
    65.41; 69.3; 73.42; 77.78; 82.41; 87.31; 92.5; 98; 103.83; 110; 116.54; 123.47;
    130.81; 138.59; 146.83; 155.56; 164.81; 174.61; 185; 196; 207.65; 220; 233.08; 246.94;
    261.63; 277.18; 293.66; 311.13; 329.63; 349.23; 369.99; 392; 415.3; 440; 466.16; 493.88;
    523.25; 554.37; 587.33; 622.25; 659.25; 698.46; 739.99; 783.99; 830.61; 880; 932.33; 987.77;
    1046.5; 1108.73; 1174.66; 1244.51; 1318.51; 1396.91; 1479.98; 1567.98; 1661.22; 1760; 1864.66; 1975.53;
    2093; 2217.46; 2349.32; 2489.02; 2637.02; 2793.83; 2959.96; 3135.96; 3322.44; 3520; 3729.31; 3951.07;
    4186.01; 4434.92; 4698.63; 4978.03; 5274.04; 5587.65; 5919.91; 6271.93; 6644.88; 7040; 7458.62; 7902.13
  ]%float.

(** A Python [dict] with float keys, in insertion order.  Assigning to a
    key that compares equal to a present one replaces its value and keeps
    its place. *)
Definition pydict (V : Type) : Type := list (float * V).

Fixpoint dict_set {V : Type} (k : float) (v : V) (d : pydict V) : pydict V :=
  match d with
  | [] => [(k, v)]
  | (k', v') :: rest =>
      if (k' =? k)%float then (k', v) :: rest else (k', v') :: dict_set k v rest
  end.

Fixpoint dict_get {V : Type} (d : pydict V) (k : float) : outcome V :=
  match d with
  | [] => Raise KeyError
  | (k', v) :: rest => if (k' =? k)%float then Ok v else dict_get rest k
  end.

Definition dict_keys {V : Type} (d : pydict V) : list float := map fst d.

(** The ladder of one candidate: [tone_freq * frequency / 440.0],
    evaluated left to right on every element. *)
Definition scale_ladder (frequency : float) : list float :=
  map (fun t => (t * frequency / 440.0)%float) tone_freq.

Definition candidates : list float :=
  Eval vm_compute in np_arange 424.0 448.1 0.1.

(** [tones = {frequency: tone_freq * frequency / 440.0
              for frequency in np.arange(424.0, 448.1, 0.1)}].
    [commandconverter432.py] keys the dictionary by [str(frequency)]; the
    shortest-repr string of a binary64 value determines it, so the keys
    of the two scripts correspond one to one. *)
Definition tones : pydict (list float) :=
  Eval vm_compute in
    fold_left (fun d frequency => dict_set frequency (scale_ladder frequency) d)
              (np_arange 424.0 448.1 0.1) [].

(** ** Arrays and magnitudes *)

(** A one-dimensional numpy array, by its length and its elements. *)
Record ndarray (A : Type) : Type := { shape0 : Z; item : Z -> A }.
Arguments shape0 {A} n.
Arguments item {A} n i.

(** [a[i]] inside an integer-array index: an index in [[0, n)] reads its
    element, one in [[-n, 0)] counts from the end, any other raises
    [IndexError].  There is no clamping. *)
Definition np_index {A : Type} (a : ndarray A) (i : Z) : outcome A :=
  if (0 <=? i) && (i <? shape0 a) then Ok (item a i)
  else if (- shape0 a <=? i) && (i <? 0) then Ok (item a (i + shape0 a))
  else Raise IndexError.

(** [a[indices]] with an integer array [indices]. *)
Fixpoint np_take {A : Type} (a : ndarray A) (indices : list Z) : outcome (list A) :=
  match indices with
  | [] => Ok []
  | i :: rest =>
      let! x := np_index a i in
      let! xs := np_take a rest in
      Ok (x :: xs)
  end.

(** Test spectra: constant magnitude, and a single line at bin [k]. *)
Definition constant_spectrum {M : Type} (n : Z) (v : M) : ndarray M :=
  {| shape0 := n; item := fun _ => v |}.

Definition line_spectrum {M : Type} (n k : Z) (v zero : M) : ndarray M :=
  {| shape0 := n; item := fun i => if i =? k then v else zero |}.

(** The values of the normalised magnitude spectrum: what [np.sum] adds
    and what [>] compares.  The scripts use binary64; the selection loop
    is written once for any such type. *)
Class Magnitude (M : Type) : Type := {
  m_zero : M;
  m_add : M -> M -> M;
  m_gt : M -> M -> bool;
  (** the values [>] orders: for binary64, all but NaN *)
  m_ordered : M -> bool
}.

#[export] Instance float_Magnitude : Magnitude float := {
  m_zero := 0%float;
  m_add := PrimFloat.add;
  m_gt := fun a b => (b <? a)%float;
  m_ordered := fun a => negb (is_nan a)
}.

#[export] Instance Z_Magnitude : Magnitude Z := {
  m_zero := 0;
  m_add := Z.add;
  m_gt := Z.gtb;
  m_ordered := fun _ => true
}.

(** The order laws the selection argument uses, on the ordered values:
    [>] is transitive, and any third value is below the greater or above
    the smaller one. *)
Class MagnitudeOrder (M : Type) `{Magnitude M} : Prop := {
  m_zero_ordered : m_ordered m_zero = true;
  m_gt_trans : forall a b c : M,
    m_ordered a = true -> m_ordered b = true -> m_ordered c = true ->
    m_gt a b = true -> m_gt b c = true -> m_gt a c = true;
  m_gt_split : forall a b c : M,
    m_ordered a = true -> m_ordered b = true -> m_ordered c = true ->
    m_gt a b = true -> m_gt a c = true \/ m_gt c b = true
}.

Section Sum.
Context {M : Type} `{Magnitude M}.

(** One pass of numpy's unrolled loop: eight running sums, element [i]
    of every full group of eight added to sum [i]; what is left of the
    array is returned with them. *)
Fixpoint sum_groups (r : M * M * M * M * M * M * M * M) (xs : list M)
  : M * M * M * M * M * M * M * M * list M :=
  match xs with
  | x0 :: x1 :: x2 :: x3 :: x4 :: x5 :: x6 :: x7 :: rest =>
      let '(r0, r1, r2, r3, r4, r5, r6, r7) := r in
      sum_groups (m_add r0 x0, m_add r1 x1, m_add r2 x2, m_add r3 x3,
                  m_add r4 x4, m_add r5 x5, m_add r6 x6, m_add r7 x7) rest
  | _ => (r, xs)
  end.

(** A block of 8 to 128 elements: the running sums start from the first
    eight elements, are combined as a balanced tree, and the elements
    past the last full group are added in order. *)
Definition sum_block (xs : list M) : M :=
  match xs with
  | x0 :: x1 :: x2 :: x3 :: x4 :: x5 :: x6 :: x7 :: rest =>
      let '(r0, r1, r2, r3, r4, r5, r6, r7, tail) :=
        sum_groups (x0, x1, x2, x3, x4, x5, x6, x7) rest in
      fold_left m_add tail
                (m_add (m_add (m_add r0 r1) (m_add r2 r3))
                       (m_add (m_add r4 r5) (m_add r6 r7)))
  | _ => fold_left m_add xs m_zero
  end.

(** numpy's pairwise summation: fewer than 8 elements are added in
    order, up to 128 as a block, and a longer array is cut in two, the
    first part a multiple of eight, and the sums of the parts are
    added.  [depth] bounds the cuts; the length of the array is
    enough. *)
Fixpoint pairwise_sum (depth : nat) (xs : list M) : M :=
  let n := length xs in
  if (n <? 8)%nat then fold_left m_add xs m_zero
  else if (n <=? 128)%nat then sum_block xs
  else match depth with
       | O => sum_block xs
       | S depth' =>
           let n2 := (n / 2 - (n / 2) mod 8)%nat in
           m_add (pairwise_sum depth' (firstn n2 xs)) (pairwise_sum depth' (skipn n2 xs))
       end.

(** [np.sum] of a one-dimensional array: the pairwise sum, added to
    the initial value 0. *)
Definition np_sum (xs : list M) : M :=
  m_add m_zero (pairwise_sum (length xs) xs).

End Sum.

(** ** Detection: scoring and selection *)

(** What [analyze_tone] returns: the initial Python [int] 0, or one of
    the float64 candidates. *)
Inductive pynum : Type :=
  | PyInt (z : Z)
  | NpFloat (f : float).

Section Detect.
Context {M : Type} `{Magnitude M}.

(** The bin indices of one ladder:
    [np.round(tone / freqstep).astype(int)]. *)
Definition tone_indices (tone : list float) (freqstep : float) : list Z :=
  map (fun t => np_round_astype_int (t / freqstep)%float) tone.

(** The score of one candidate:
    [np.sum(fft_normed[np.round(tones[frequency] / freqstep).astype(int)])]
    with [freqstep = sample_rate / samples_len]. *)
Definition tone_score (sample_rate samples_len : Z) (fft_normed : ndarray M)
           (frequency : float) : outcome M :=
  let! tone := dict_get tones frequency in
  let! freqstep := py_truediv sample_rate samples_len in
  let! picked := np_take fft_normed (tone_indices tone freqstep) in
  Ok (np_sum picked).

(** One turn of the loop: replace the pair on a strictly greater sum. *)
Definition scan_update (st : M * pynum) (frequency : float) (sum_freq : M) : M * pynum :=
  if m_gt sum_freq (fst st) then (sum_freq, NpFloat frequency) else st.

Fixpoint scan_loop (score : float -> outcome M) (cands : list float)
         (st : M * pynum) : outcome (M * pynum) :=
  match cands with
  | [] => Ok st
  | frequency :: rest =>
      let! sum_freq := score frequency in
      scan_loop score rest (scan_update st frequency sum_freq)
  end.

(** The loop of [analyze_tone] from [max_sum = 0], [max_freq = 0]. *)
Definition analyze_tone_scan (sample_rate samples_len : Z) (fft_normed : ndarray M)
  : outcome pynum :=
  let! st := scan_loop (tone_score sample_rate samples_len fft_normed)
                       (np_arange 424.0 448.1 0.1) (m_zero, PyInt 0) in
  Ok (snd st).

End Detect.

(** ** Sample buffers *)

(** pydub's [AudioSegment]: the raw bytes and the format metadata.  A
    frame holds one sample of [sample_width] bytes for each channel. *)
Record AudioSegment : Type := {
  raw_data : list Byte.byte;
  sample_width : Z;
  frame_rate : Z;
  channels : Z
}.

Definition frame_width (s : AudioSegment) : Z := channels s * sample_width s.

(** [frame_count()]: [len(data) // frame_width]. *)
Definition frame_count (s : AudioSegment) : Z :=
  Z.of_nat (length (raw_data s)) / frame_width s.

(** [duration_seconds]:
    [frame_rate and frame_count() / frame_rate or 0.0]. *)
Definition duration_seconds (s : AudioSegment) : float :=
  if frame_rate s =? 0 then 0%float
  else (F64.of_Z (frame_count s) / F64.of_Z (frame_rate s))%float.

(** [sound._spawn(data, overrides={"frame_rate": rate})]: the same
    format with other bytes and another frame rate. *)
Definition spawn (s : AudioSegment) (data : list Byte.byte) (rate : Z) : AudioSegment :=
  {| raw_data := data; sample_width := sample_width s;
     frame_rate := rate; channels := channels s |}.

(** The operations of the audio library the scripts call and whose
    results they only pass on.  Their code is not part of the scripts. *)
Class AudioLib : Type := {
  (** [AudioSegment.silent(duration=ms)] *)
  silent : Z -> AudioSegment;
  (** [a + b], concatenation *)
  seg_add : AudioSegment -> AudioSegment -> AudioSegment;
  (** [a[:ms]] *)
  seg_slice_to : AudioSegment -> Z -> AudioSegment;
  (** [a.set_channels(n)] *)
  set_channels : AudioSegment -> Z -> AudioSegment;
  (** [a.get_array_of_samples()] *)
  get_array_of_samples : AudioSegment -> list Z;
  (** [a.set_frame_rate(rate)], the resampler *)
  set_frame_rate : AudioSegment -> Z -> AudioSegment
}.

(** [np.abs(np.fft.fft(samples)) / len(fft_result)]: the normalised
    magnitude spectrum, one value per sample. *)
Class Spectrum (M : Type) : Type := {
  fft_normed : list Z -> ndarray M
}.

Section Engine.
Context {lib : AudioLib} {M : Type} `{Magnitude M} {spectrum : Spectrum M}.

(** The padding step of [analyze_tone]. *)
Definition analyze_tone_pad (song : AudioSegment) : outcome AudioSegment :=
  let duration := duration_seconds song in
  if (duration <? 101)%float then
    let! pad_ms := py_int ((120.0 - duration) * 1000)%float in
    Ok (seg_add song (silent pad_ms))
  else Ok song.

(** The samples the transform is taken of: the first 100 s, mono. *)
Definition analyze_tone_samples (song : AudioSegment) : outcome (list Z) :=
  let! audio := analyze_tone_pad song in
  let first_100_second := set_channels (seg_slice_to audio (100 * 1000)) 1 in
  Ok (get_array_of_samples first_100_second).

Definition analyze_tone (song : AudioSegment) : outcome pynum :=
  let sample_rate := frame_rate song in
  let! samples := analyze_tone_samples song in
  let samples_len := Z.of_nat (length samples) in
  analyze_tone_scan sample_rate samples_len (fft_normed samples).

(** [sound._spawn(sound.raw_data,
                  overrides={"frame_rate": int(sound.frame_rate * speed)})] *)
Definition sound_with_altered_frame_rate (sound : AudioSegment) (speed : float)
  : outcome AudioSegment :=
  let! rate := py_int (F64.of_Z (frame_rate sound) * speed)%float in
  Ok (spawn sound (raw_data sound) rate).

Definition speed_change (sound : AudioSegment) (speed : float) (target_sample_rate : Z)
  : outcome AudioSegment :=
  let! altered := sound_with_altered_frame_rate sound speed in
  Ok (set_frame_rate altered target_sample_rate).

End Engine.

Definition TARGET_FREQUENCY : float := 432.0.

(** [TARGET_FREQUENCY / tone]: dividing by the Python [int] 0 raises,
    dividing by a numpy float does not. *)
Definition speed_ratio (tone : pynum) : outcome float :=
  match tone with
  | PyInt z => if z =? 0 then Raise ZeroDivisionError
               else Ok (TARGET_FREQUENCY / F64.of_Z z)%float
  | NpFloat f => Ok (TARGET_FREQUENCY / f)%float
  end.

(** A mono 16-bit buffer of [frames] silent frames. *)
Definition silence_buffer (rate frames : Z) : AudioSegment :=
  {| raw_data := repeat Byte.x00 (Z.to_nat (2 * frames));
     sample_width := 2; frame_rate := rate; channels := 1 |}.

(** A bare-bones library used to run the scripts on small inputs: it
    concatenates and cuts raw bytes, reads every byte as one sample and
    relabels the rate without interpolating, except that resampling to
    the rate a buffer already has returns the buffer.  Nothing about the
    real library is derived from it. *)
Definition bare_slice (a : AudioSegment) (ms : Z) : AudioSegment :=
  spawn a (firstn (Z.to_nat (ms * frame_rate a / 1000 * frame_width a)) (raw_data a))
        (frame_rate a).

Definition bare_lib : AudioLib := {|
  silent := fun ms => silence_buffer 11025 (11025 * ms / 1000);
  seg_add := fun a b => spawn a (raw_data a ++ raw_data b) (frame_rate a);
  seg_slice_to := bare_slice;
  set_channels := fun a n =>
    {| raw_data := raw_data a; sample_width := sample_width a;
       frame_rate := frame_rate a; channels := n |};
  get_array_of_samples := fun a => map (fun b => Z.of_N (Byte.to_N b)) (raw_data a);
  set_frame_rate := fun a rate =>
    if rate =? frame_rate a then a else spawn a (raw_data a) rate
|}.

(** ** Strings and paths *)

(** [str.lower()] on the ASCII letters.  File names are modelled as
    strings of 8-bit characters; the letters of the supported
    extensions are ASCII, so the case folding of other characters does
    not matter to the suffix test. *)
Definition lower_ascii (c : ascii) : ascii :=
  let n := nat_of_ascii c in
  if ((65 <=? n) && (n <=? 90))%nat then ascii_of_nat (n + 32) else c.

Fixpoint lower (s : string) : string :=
  match s with
  | EmptyString => EmptyString
  | String c rest => String (lower_ascii c) (lower rest)
  end.

(** [s.endswith(suffix)] *)
Fixpoint endswith (s suffix : string) : bool :=
  if String.eqb s suffix then true
  else match s with
       | EmptyString => false
       | String _ rest => endswith rest suffix
       end.

(** [s.startswith(pre)] *)
Fixpoint startswith (s pre : string) {struct pre} : bool :=
  match pre, s with
  | EmptyString, _ => true
  | String _ _, EmptyString => false
  | String c pre', String c' s' => Ascii.eqb c c' && startswith s' pre'
  end.

(** [s.endswith(tuple)] *)
Definition endswith_any (s : string) (suffixes : list string) : bool :=
  existsb (endswith s) suffixes.

Definition SUPPORTED_FORMATS : list string :=
  [".mp3"; ".wav"; ".flac"; ".aac"; ".m4a"; ".wma"; ".ogg"]%string.

(** The extensions, as the design document lists them. *)
Definition supported_extensions : list string :=
  ["mp3"; "wav"; "flac"; "aac"; "m4a"; "wma"; "ogg"]%string.

(** The filter of [batch_convert_directory]:
    [f.lower().endswith(SUPPORTED_FORMATS) and not f.startswith("432hz_")]. *)
Definition batch_selected (f : string) : bool :=
  endswith_any (lower f) SUPPORTED_FORMATS && negb (startswith f "432hz_").

Definition files_to_convert (listing : list string) : list string :=
  List.filter batch_selected listing.

(** [posixpath.split]: cut after the last slash; trailing slashes are
    stripped from the head unless it consists of slashes only. *)
Fixpoint split_at_last_sep (p : string) : string * string :=
  match p with
  | EmptyString => (EmptyString, EmptyString)
  | String c rest =>
      let (h, t) := split_at_last_sep rest in
      if negb (String.eqb h "") then (String c h, t)
      else if Ascii.eqb c "/" then ("/"%string, rest)
      else (EmptyString, String c rest)
  end.

Fixpoint all_seps (s : string) : bool :=
  match s with
  | EmptyString => true
  | String c rest => Ascii.eqb c "/" && all_seps rest
  end.

Fixpoint rstrip_seps (s : string) : string :=
  match s with
  | EmptyString => EmptyString
  | String c rest =>
      let rest' := rstrip_seps rest in
      if Ascii.eqb c "/" && String.eqb rest' "" then EmptyString else String c rest'
  end.

Definition os_path_split (p : string) : string * string :=
  let (h, t) := split_at_last_sep p in
  (if negb (String.eqb h "") && negb (all_seps h) then rstrip_seps h else h, t).

(** [os.path.splitext] on a file name without slashes: cut at the last
    dot, unless only dots precede it. *)
Fixpoint split_at_last_dot (s : string) : option (string * string) :=
  match s with
  | EmptyString => None
  | String c rest =>
      match split_at_last_dot rest with
      | Some (stem, ext) => Some (String c stem, ext)
      | None => if Ascii.eqb c "." then Some (EmptyString, s) else None
      end
  end.

Fixpoint all_dots (s : string) : bool :=
  match s with
  | EmptyString => true
  | String c rest => Ascii.eqb c "." && all_dots rest
  end.

Definition os_path_splitext (name : string) : string * string :=
  match split_at_last_dot name with
  | Some (stem, ext) => if all_dots stem then (name, EmptyString) else (stem, ext)
  | None => (name, EmptyString)
  end.

(** [posixpath.join(a, b)] *)
Definition os_path_join (a b : string) : string :=
  if startswith b "/" then b
  else if String.eqb a "" || endswith a "/" then (a ++ b)%string
  else (a ++ "/" ++ b)%string.

(** [output_folder or folder]: [None] and the empty string are falsy. *)
Definition or_folder (output_folder : option string) (folder : string) : string :=
  match output_folder with
  | Some o => if String.eqb o "" then folder else o
  | None => folder
  end.

(** The output path of [convert_to_432hz]:
    [<output_folder or folder>/432hz_<stem>.<target_format>]. *)
Definition output_path (input_file : string) (output_folder : option string)
           (target_format : string) : string :=
  let (folder, filename) := os_path_split input_file in
  let new_filename :=
    ("432hz_" ++ fst (os_path_splitext filename) ++ "." ++ target_format)%string in
  os_path_join (or_folder output_folder folder) new_filename.

(** [s.split(',') if ',' in s else [s]] *)
Fixpoint split_commas (s : string) : list string :=
  match s with
  | EmptyString => [EmptyString]
  | String c rest =>
      if Ascii.eqb c "," then EmptyString :: split_commas rest
      else match split_commas rest with
           | first :: others => String c first :: others
           | [] => [String c EmptyString]
           end
  end.

(** ** The file system *)

(** Files by path, and the set of directories. *)
Record FileSystem : Type := {
  files : gmap string (list Byte.byte);
  dirs : gset string
}.

Definition isfile (p : string) (fs : FileSystem) : bool :=
  bool_decide (is_Some (files fs !! p)).

Definition isdir (p : string) (fs : FileSystem) : bool :=
  bool_decide (p ∈ dirs fs).

(** [os.path.exists] *)
Definition path_exists (p : string) (fs : FileSystem) : bool :=
  isfile p fs || isdir p fs.

(** The names directly inside directory [d]. *)
Definition dir_entries (d : string) (fs : FileSystem) : list string :=
  flat_map (fun p => let (h, t) := os_path_split p in
                     if String.eqb h d && negb (String.eqb t "") then [t] else [])
           (map fst (map_to_list (files fs)) ++ elements (dirs fs)).

Definition write_file (p : string) (data : list Byte.byte) (fs : FileSystem) : FileSystem :=
  {| files := <[p := data]> (files fs); dirs := dirs fs |}.

(** ** Programs: file-system state, printed messages, exceptions *)

(** What the scripts print. *)
Inductive message : Type :=
  | MsgUnsupported (input_file : string)
  | MsgSkipExisting (output_file : string)
  | MsgConverting (input_file : string)
  | MsgDetected (tone : pynum)
  | MsgRatio (speed_ratio : float)
  | MsgSaving (output_file : string)
  | MsgComplete (output_file : string)
  | MsgError (input_file : string) (e : exn)
  | MsgBatchFound (total : Z) (directory : string)
  | MsgBatchItem (i total : Z) (filename : string)
  | MsgBatchProgress (i total : Z)
  | MsgBatchComplete
  | MsgInvalidInput (input : string).

(** A program runs from a file system and yields the file system it
    leaves, the messages it printed, and its result or exception. *)
Definition prog (A : Type) : Type :=
  FileSystem -> FileSystem * list message * outcome A.

Definition ret {A : Type} (a : A) : prog A := fun fs => (fs, [], Ok a).

Definition seq_prog {A B : Type} (p : prog A) (k : A -> prog B) : prog B :=
  fun fs =>
    match p fs with
    | (fs1, out1, Ok a) =>
        match k a fs1 with
        | (fs2, out2, r) => (fs2, out1 ++ out2, r)
        end
    | (fs1, out1, Raise e) => (fs1, out1, Raise e)
    end.

Notation "'let*' x ':=' c1 'in' c2" := (seq_prog c1 (fun x => c2))
  (at level 10, x pattern, c1 at level 100, c2 at level 200).

(** The console the scripts print to.  A [print] raises when the console
    does not take the text: [UnicodeEncodeError] on a character outside
    its encoding, [OSError] when it is closed.  Nothing is written
    then. *)
Class Console : Type := {
  write_fails : message -> option exn
}.

(** A console that takes every message.  A property that names no
    console is about a run on this one. *)
#[export] Instance reliable_console : Console := {|
  write_fails := fun _ => None
|}.

Definition print {console : Console} (m : message) : prog unit :=
  fun fs => match write_fails m with
            | None => (fs, [m], Ok tt)
            | Some e => (fs, [], Raise e)
            end.

Definition lift {A : Type} (x : outcome A) : prog A := fun fs => (fs, [], x).

Definition get_fs : prog FileSystem := fun fs => (fs, [], Ok fs).

Definition when (b : bool) (p : prog unit) : prog unit := if b then p else ret tt.

(** [try: body / except Exception as e: handler(e)] *)
Definition try_except_Exception (body : prog unit) (handler : exn -> prog unit) : prog unit :=
  fun fs =>
    match body fs with
    | (fs1, out1, Raise e) =>
        if is_Exception e then
          match handler e fs1 with
          | (fs2, out2, r) => (fs2, out1 ++ out2, r)
          end
        else (fs1, out1, Raise e)
    | done => done
    end.

(** [try: body / finally: cleanup] *)
Definition try_finally {A : Type} (body : prog A) (cleanup : prog unit) : prog A :=
  fun fs =>
    match body fs with
    | (fs1, out1, r) =>
        match cleanup fs1 with
        | (fs2, out2, Ok _) => (fs2, out1 ++ out2, r)
        | (fs2, out2, Raise e) => (fs2, out1 ++ out2, Raise e)
        end
    end.

(** [for x in xs: body(x)] *)
Fixpoint for_each {A : Type} (xs : list A) (body : A -> prog unit) : prog unit :=
  match xs with
  | [] => ret tt
  | x :: rest => let* _ := body x in for_each rest body
  end.

(** [os.listdir] *)
Definition os_listdir (d : string) : prog (list string) :=
  fun fs => if isdir d fs then (fs, [], Ok (dir_entries d fs))
            else (fs, [], Raise (FileNotFoundError d)).

(** [os.makedirs(d, exist_ok=True)] *)
Definition os_makedirs (d : string) : prog unit :=
  fun fs => if isfile d fs then (fs, [], Raise (OSError "File exists"))
            else ({| files := files fs; dirs := {[d]} ∪ dirs fs |}, [], Ok tt).

(** [os.remove] *)
Definition os_remove (p : string) : prog unit :=
  fun fs => if isfile p fs
            then ({| files := delete p (files fs); dirs := dirs fs |}, [], Ok tt)
            else (fs, [], Raise (FileNotFoundError p)).

(** [os.rmdir]: only an empty directory can be removed. *)
Definition os_rmdir (d : string) : prog unit :=
  fun fs => if negb (isdir d fs) then (fs, [], Raise (FileNotFoundError d))
            else match dir_entries d fs with
                 | [] => ({| files := files fs; dirs := dirs fs ∖ {[d]} |}, [], Ok tt)
                 | _ :: _ => (fs, [], Raise (OSError "Directory not empty"))
                 end.

(** ** The conversion of one file, and of a directory *)

(** The decoder and encoder, and the downloader: collaborators whose
    code is not part of the scripts.  Each may fail, and the encoder and
    the downloader change the file system. *)
Class Codec : Type := {
  (** [AudioSegment.from_file(path)] *)
  from_file : string -> FileSystem -> outcome AudioSegment;
  (** [segment.export(path, format=..., bitrate=...)] *)
  export : AudioSegment -> string -> string -> string -> FileSystem
           -> FileSystem * outcome unit
}.

Class Downloader : Type := {
  (** [ydl.download(urls)] into a folder *)
  ydl_download : list string -> string -> FileSystem -> FileSystem * outcome unit
}.

(** The two scripts. *)
Inductive script : Type := converter_py | commandconverter432_py.

Definition is_commandconverter432 (s : script) : bool :=
  match s with commandconverter432_py => true | converter_py => false end.

Definition DEFAULT_TARGET_SAMPLE_RATE : Z := 48000.

Definition DEFAULT_TARGET_BITRATE (s : script) : string :=
  match s with converter_py => "320k" | commandconverter432_py => "192k" end.

Section Orchestrator.
Context {lib : AudioLib} {M : Type} `{Magnitude M} {spectrum : Spectrum M}.
Context {codec : Codec} {console : Console}.

Definition decode (input_file : string) : prog AudioSegment :=
  fun fs => (fs, [], from_file input_file fs).

Definition encode (segment : AudioSegment) (output_file target_format target_bitrate : string)
  : prog unit :=
  fun fs => let (fs', r) := export segment output_file target_format target_bitrate fs in
            (fs', [], r).

(** The body of the [try] of [convert_to_432hz].  [converter.py] prints
    three of the five progress lines of [commandconverter432.py]. *)
Definition convert_body (which : script) (input_file : string) (output_folder : option string)
           (target_format target_bitrate : string) (target_sample_rate : Z) : prog unit :=
  if negb (endswith_any (lower input_file) SUPPORTED_FORMATS) then
    print (MsgUnsupported input_file)
  else
    let output_file := output_path input_file output_folder target_format in
    let* fs := get_fs in
    if path_exists output_file fs then
      print (MsgSkipExisting output_file)
    else
      let* _ := print (MsgConverting input_file) in
      let* song := decode input_file in
      let* tone := lift (analyze_tone song) in
      let* _ := print (MsgDetected tone) in
      let* ratio := lift (speed_ratio tone) in
      let* _ := when (is_commandconverter432 which) (print (MsgRatio ratio)) in
      let* new_song := lift (speed_change song ratio target_sample_rate) in
      let* _ := when (is_commandconverter432 which) (print (MsgSaving output_file)) in
      let* _ := encode new_song output_file target_format target_bitrate in
      print (MsgComplete output_file).

Definition convert_to_432hz (which : script) (input_file : string)
           (output_folder : option string) (target_format target_bitrate : string)
           (target_sample_rate : Z) : prog unit :=
  try_except_Exception
    (convert_body which input_file output_folder target_format target_bitrate
                  target_sample_rate)
    (fun e => print (MsgError input_file e)).

(** [for i, filename in enumerate(files, 1): ...] *)
Fixpoint batch_loop (which : script) (directory : string) (output_folder : option string)
         (target_format target_bitrate : string) (target_sample_rate : Z)
         (i total : Z) (names : list string) : prog unit :=
  match names with
  | [] => ret tt
  | filename :: rest =>
      let input_file := os_path_join directory filename in
      let* _ := print (MsgBatchItem i total filename) in
      let* _ := convert_to_432hz which input_file output_folder target_format
                                 target_bitrate target_sample_rate in
      let* _ := when (is_commandconverter432 which) (print (MsgBatchProgress i total)) in
      batch_loop which directory output_folder target_format target_bitrate
                 target_sample_rate (i + 1) total rest
  end.

Definition batch_convert_directory (which : script) (directory : string)
           (output_folder : option string) (target_format target_bitrate : string)
           (target_sample_rate : Z) : prog unit :=
  let* listing := os_listdir directory in
  let names := files_to_convert listing in
  let total := Z.of_nat (length names) in
  let* _ := print (MsgBatchFound total directory) in
  let* _ := batch_loop which directory output_folder target_format target_bitrate
                       target_sample_rate 1 total names in
  when (is_commandconverter432 which) (print MsgBatchComplete).

End Orchestrator.

(** ** The command line *)

Record Args : Type := {
  arg_input : string;
  arg_output : option string;
  arg_format : string;
  arg_bitrate : string;
  arg_sample_rate : Z;
  arg_youtube : bool
}.

Section Main.
Context {lib : AudioLib} {M : Type} `{Magnitude M} {spectrum : Spectrum M}.
Context {codec : Codec} {downloader : Downloader} {console : Console}.

(** [download_platform_audio] and [download_youtube_audio]: run the
    downloader, then list the [.mp3] files of the folder. *)
Definition download_audio (video_urls : list string) (output_folder : string)
  : prog (list string) :=
  let* _ := (fun fs => let (fs', r) := ydl_download video_urls output_folder fs in
                       (fs', [], r)) in
  let* listing := os_listdir output_folder in
  ret (map (os_path_join output_folder)
           (List.filter (fun f => endswith f ".mp3") listing)).

(** What [main] does with a path that is no URL. *)
Definition main_local (which : script) (args : Args) : prog unit :=
  let* fs := get_fs in
  if isfile (arg_input args) fs then
    convert_to_432hz which (arg_input args) (arg_output args) (arg_format args)
                     (arg_bitrate args) (arg_sample_rate args)
  else if isdir (arg_input args) fs then
    batch_convert_directory which (arg_input args) (arg_output args) (arg_format args)
                            (arg_bitrate args) (arg_sample_rate args)
  else print (MsgInvalidInput (arg_input args)).

Definition convert_all (which : script) (args : Args) (downloaded : list string) : prog unit :=
  for_each downloaded
           (fun file => convert_to_432hz which file (arg_output args) (arg_format args)
                                         (arg_bitrate args) (arg_sample_rate args)).

End Main.

(** [main] of [converter.py]: the cleanup is the [finally] of a [try]
    that covers the download and the conversions, and removes every
    entry the directory lists. *)
Module Converter.
Section Main.
Context {lib : AudioLib} {M : Type} `{Magnitude M} {spectrum : Spectrum M}.
Context {codec : Codec} {downloader : Downloader} {console : Console}.

Definition temp_dir : string := "temp_audio_downloads".

Definition cleanup : prog unit :=
  let* listing := os_listdir temp_dir in
  let* _ := for_each listing (fun file => os_remove (os_path_join temp_dir file)) in
  os_rmdir temp_dir.

Definition main (args : Args) : prog unit :=
  if arg_youtube args then
    let* _ := os_makedirs temp_dir in
    try_finally
      (let urls := split_commas (arg_input args) in
       let* downloaded := download_audio urls temp_dir in
       convert_all converter_py args downloaded)
      cleanup
  else main_local converter_py args.

End Main.
End Converter.

(** [main] of [commandconverter432.py]: the cleanup follows the
    conversions in straight line, and removes the downloaded files
    only. *)
Module CommandConverter432.
Section Main.
Context {lib : AudioLib} {M : Type} `{Magnitude M} {spectrum : Spectrum M}.
Context {codec : Codec} {downloader : Downloader} {console : Console}.

Definition temp_folder : string := "temp_youtube_audio".

Definition main (args : Args) : prog unit :=
  if arg_youtube args then
    let video_urls := split_commas (arg_input args) in
    let* _ := os_makedirs temp_folder in
    let* downloaded_files := download_audio video_urls temp_folder in
    let* _ := convert_all commandconverter432_py args downloaded_files in
    let* _ := for_each downloaded_files os_remove in
    os_rmdir temp_folder
  else main_local commandconverter432_py args.

End Main.
End CommandConverter432.

(** ** What the properties speak of *)

(** The outcome of the selection over candidates [cands] scored by
    [score]: there are scores for all candidates, and the result [r] is
    either the initial 0, no score being strictly positive, or the
    candidate [c] at the first position whose score [s] is strictly
    positive, strictly above every earlier score and not exceeded by any
    later one. *)
Definition selected {M : Type} `{Magnitude M}
           (score : float -> outcome M) (cands : list float) (r : pynum) : Prop :=
  exists scores : list M,
    Forall2 (fun c s => score c = Ok s) cands scores
    /\ ((r = PyInt 0 /\ Forall (fun s => m_gt s m_zero = false) scores)
        \/ (exists cs1 c cs2 ss1 s ss2,
               cands = cs1 ++ c :: cs2
               /\ scores = ss1 ++ s :: ss2
               /\ length cs1 = length ss1
               /\ r = NpFloat c
               /\ m_gt s m_zero = true
               /\ Forall (fun s' => m_gt s s' = true) ss1
               /\ Forall (fun s' => m_gt s' s = false) ss2)).

(** The interval the detector's result is documented to lie in. *)
Definition in_424_448 (r : pynum) : bool :=
  match r with
  | PyInt z => (424 <=? z) && (z <=? 448)
  | NpFloat f => ((424.0 <=? f) && (f <=? 448.0))%float
  end.

(** The scoring rule with a bounds clamp, as the design document words
    it: an index outside the spectrum contributes zero.  It is the
    yardstick [tone_score] is compared with, not part of the scripts. *)
Definition clamped_take {M : Type} `{Magnitude M} (a : ndarray M) (indices : list Z) : list M :=
  map (fun i => if (0 <=? i) && (i <? shape0 a) then item a i else m_zero) indices.

Definition clamped_tone_score {M : Type} `{Magnitude M}
           (sample_rate samples_len : Z) (fft_normed : ndarray M)
           (frequency : float) : outcome M :=
  let! tone := dict_get tones frequency in
  let! freqstep := py_truediv sample_rate samples_len in
  Ok (np_sum (clamped_take fft_normed (tone_indices tone freqstep))).

(** No candidate's score is outside the ordered values (no sum is NaN). *)
Definition scores_ordered {M : Type} `{Magnitude M}
           (score : float -> outcome M) (cands : list float) : bool :=
  forallb (fun c => match score c with Ok s => m_ordered s | Raise _ => true end) cands.

(** A key that orders the binary64 values other than NaN as their
    comparison does, lexicographically. *)
Definition SF_key (x : spec_float) : Z * Z * Z :=
  match x with
  | S754_infinity true => (-2, 0, 0)
  | S754_finite true m e => (-1, - e, - Z.pos m)
  | S754_zero _ => (0, 0, 0)
  | S754_finite false m e => (1, e, Z.pos m)
  | S754_infinity false => (2, 0, 0)
  | S754_nan => (3, 0, 0)
  end.

Definition lt3 (a b : Z * Z * Z) : Prop :=
  let '(a1, a2, a3) := a in
  let '(b1, b2, b3) := b in
  a1 < b1 \/ (a1 = b1 /\ (a2 < b2 \/ (a2 = b2 /\ a3 < b3))).

(** A program is contained when every exception it lets out derives
    from [Exception]. *)
Definition contained {A : Type} (p : prog A) : Prop :=
  forall fs fs' printed e,
    p fs = (fs', printed, Raise e) -> is_Exception e = true.

Definition raises_Exception_only {A : Type} (x : outcome A) : Prop :=
  forall e, x = Raise e -> is_Exception e = true.

(** Equality of two lists of floats, bit for bit. *)
Fixpoint floats_eqb (xs ys : list float) : bool :=
  match xs, ys with
  | [], [] => true
  | x :: xs', y :: ys' => PrimFloat.Leibniz.eqb x y && floats_eqb xs' ys'
  | _, _ => false
  end.

(** Strictly increasing lists of floats. *)
Fixpoint increasing (xs : list float) : bool :=
  match xs with
  | x :: (y :: _) as rest => (x <? y)%float && increasing rest
  | _ => true
  end.


(** 1.0 as a binary64 value: mantissa [2^52], exponent [-52]. *)
Definition SF_one : spec_float := S754_finite false 4503599627370496 (-52).

(** ** Stand-in collaborators *)

(** Stand-ins for the collaborators, used to run the scripts on small
    inputs: the decoder reads a file as a mono 16-bit buffer at
    44100 Hz, the encoder writes the raw bytes, the downloader stores
    one file [song.mp3], the spectrum is flat, and [clip_lib] is
    [bare_lib] with empty silence, which keeps the buffers short. *)
Definition bare_codec : Codec := {|
  from_file := fun p fs =>
    match files fs !! p with
    | Some data => Ok {| raw_data := data; sample_width := 2;
                         frame_rate := 44100; channels := 1 |}
    | None => Raise (FileNotFoundError p)
    end;
  export := fun seg output_file _ _ fs => (write_file output_file (raw_data seg) fs, Ok tt)
|}.

(** A decoder interrupted from the keyboard. *)
Definition interrupted_codec : Codec := {|
  from_file := fun _ _ => Raise KeyboardInterrupt;
  export := fun seg output_file _ _ fs => (write_file output_file (raw_data seg) fs, Ok tt)
|}.

Definition bare_downloader : Downloader := {|
  ydl_download := fun _ folder fs =>
    (write_file (os_path_join folder "song.mp3") (repeat Byte.x01 8) fs, Ok tt)
|}.

Definition flat_Spectrum : Spectrum Z := {|
  fft_normed := fun samples => constant_spectrum (Z.of_nat (length samples)) 1
|}.

Definition clip_lib : AudioLib := {|
  silent := fun _ => silence_buffer 11025 0;
  seg_add := seg_add (AudioLib := bare_lib);
  seg_slice_to := seg_slice_to (AudioLib := bare_lib);
  set_channels := set_channels (AudioLib := bare_lib);
  get_array_of_samples := get_array_of_samples (AudioLib := bare_lib);
  set_frame_rate := set_frame_rate (AudioLib := bare_lib)
|}.

Definition empty_fs : FileSystem := {| files := ∅; dirs := ∅ |}.

Definition final_fs {A : Type} (x : FileSystem * list message * outcome A) : FileSystem :=
  fst (fst x).

Definition result {A : Type} (x : FileSystem * list message * outcome A) : outcome A :=
  snd x.

(** The command line [<url> --youtube], with or without [-o]. *)
Definition url_args (which : script) (output : option string) : Args := {|
  arg_input := "https://youtu.be/example";
  arg_output := output;
  arg_format := "mp3";
  arg_bitrate := DEFAULT_TARGET_BITRATE which;
  arg_sample_rate := DEFAULT_TARGET_SAMPLE_RATE;
  arg_youtube := true
|}.

(** URL runs of the two scripts from an empty working directory, on the
    stand-in collaborators, with a given decoder and [-o] option. *)
Definition cc432_url_run (codec : Codec) (output : option string)
  : FileSystem * list message * outcome unit :=
  CommandConverter432.main (lib := clip_lib) (spectrum := flat_Spectrum)
                           (codec := codec) (downloader := bare_downloader)
                           (url_args commandconverter432_py output) empty_fs.

Definition converter_url_run (codec : Codec) (output : option string)
  : FileSystem * list message * outcome unit :=
  Converter.main (lib := clip_lib) (spectrum := flat_Spectrum)
                 (codec := codec) (downloader := bare_downloader)
                 (url_args converter_py output) empty_fs.

(** ** The window *)





(** ** Runs and what they leave *)

(** The messages a run printed. *)
Definition printed_of {A : Type} (x : FileSystem * list message * outcome A) : list message :=
  snd (fst x).

(** The lines [commandconverter432.py] prints and [converter.py] does
    not. *)
Definition only_commandconverter432 (which : script) (lines : list message) : list message :=
  if is_commandconverter432 which then lines else [].

Section InTurn.
Context {lib : AudioLib} {M : Type} `{Magnitude M} {spectrum : Spectrum M}.
Context {codec : Codec} {console : Console}.

(** A batch as the design document words it: the selected files are
    converted in turn, each announced with its index and converted on the
    file system its predecessor left, failed or not.  The result is the
    file system after the last file and the lines printed. *)
Fixpoint convert_in_turn (which : script) (directory : string) (output_folder : option string)
         (target_format target_bitrate : string) (target_sample_rate : Z)
         (i total : Z) (names : list string) (fs : FileSystem)
  : FileSystem * list message :=
  match names with
  | [] => (fs, [])
  | filename :: rest =>
      let run := convert_to_432hz which (os_path_join directory filename) output_folder
                                  target_format target_bitrate target_sample_rate fs in
      let later := convert_in_turn which directory output_folder target_format
                                   target_bitrate target_sample_rate (i + 1) total rest
                                   (final_fs run) in
      (fst later,
       MsgBatchItem i total filename
         :: printed_of run
         ++ only_commandconverter432 which [MsgBatchProgress i total]
         ++ snd later)
  end.

End InTurn.

(** A console that cannot encode the text of an error line, a decoder
    that fails on every file, and a directory [music] with two songs. *)
Definition narrow_console : Console := {|
  write_fails := fun m => match m with
                          | MsgError _ _ => Some UnicodeEncodeError
                          | _ => None
                          end
|}.

Definition undecodable_codec : Codec := {|
  from_file := fun _ _ => Raise CouldntDecodeError;
  export := fun seg output_file _ _ fs => (write_file output_file (raw_data seg) fs, Ok tt)
|}.

Definition two_songs_fs : FileSystem := {|
  files := {["music/a.mp3"%string := repeat Byte.x01 8;
             "music/b.mp3"%string := repeat Byte.x01 8]};
  dirs := {["music"%string]}
|}.

(** ** What the further properties speak of *)

(** The ends of the grid as the scripts build it, and of the speed
    ratios [432 / candidate] it leads to. *)
Definition in_grid_range (c : float) : bool :=
  ((424.0 <=? c) && (c <=? 448.10000000000548))%float.

Definition in_ratio_range (ratio : float) : bool :=
  ((0.964 <=? ratio) && (ratio <=? 1.019))%float.

(** An index that integer-array indexing rejects. *)
Definition out_of_range {A : Type} (a : ndarray A) (i : Z) : Prop :=
  i < - shape0 a \/ shape0 a <= i.

(** No slash occurs in the string. *)
Fixpoint no_sep (s : string) : bool :=
  match s with
  | EmptyString => true
  | String c rest => negb (Ascii.eqb c "/") && no_sep rest
  end.

(** No comma occurs in the string. *)
Fixpoint no_comma (s : string) : bool :=
  match s with
  | EmptyString => true
  | String c rest => negb (Ascii.eqb c ",") && no_comma rest
  end.

(** [",".join(parts)] *)
Fixpoint join_commas (parts : list string) : string :=
  match parts with
  | [] => EmptyString
  | [p] => p
  | p :: rest => (p ++ "," ++ join_commas rest)%string
  end.

(** The name [convert_to_432hz] gives the output of [input_file]. *)
Definition output_name (input_file target_format : string) : string :=
  ("432hz_" ++ fst (os_path_splitext (snd (os_path_split input_file)))
            ++ "." ++ target_format)%string.

(** A folder in the form [os.path.split] returns heads in: empty, all
    slashes, or without a trailing slash. *)
Definition normal_folder (d : string) : Prop :=
  d = EmptyString \/ all_seps d = true \/ endswith d "/" = false.

(** [OSError] and its subclasses: what the calls on the file system
    raise. *)
Definition is_OSError (e : exn) : bool :=
  match e with
  | OSError _ | FileNotFoundError _ => true
  | _ => false
  end.

(** Two file systems that differ at most at the path [p]: the same
    directories, and the same content at every other path. *)
Definition same_except (p : string) (fs fs' : FileSystem) : Prop :=
  dirs fs' = dirs fs /\ forall q, q <> p -> files fs' !! q = files fs !! q.

(** A program that writes at most to the path [p]. *)
Definition writes_only {A : Type} (p : string) (run : prog A) : Prop :=
  forall fs fs' out r, run fs = (fs', out, r) -> same_except p fs fs'.

(** A working directory holding the one file [a.mp3], of eight bytes,
    and a directory [music] holding the one file [notes.txt]. *)
Definition one_file_fs : FileSystem := write_file "a.mp3" (repeat Byte.x01 8) empty_fs.



(** The conversion of [a.mp3] in [one_file_fs] by [converter.py], on the
    stand-in collaborators. *)
Definition one_file_run : FileSystem * list message * outcome unit :=
  convert_to_432hz (lib := clip_lib) (spectrum := flat_Spectrum) (codec := bare_codec)
                   converter_py "a.mp3" None "mp3" "320k" 48000 one_file_fs.

(** * Properties *)

(** ** Tactics and small facts *)

(** Closes the branches of a conversion that stop before the completion
    line is printed. *)
Ltac not_completed :=
  intros [= <- <- <-]; cbn; intuition discriminate.

Lemma bind_Ok_inv {A B : Type} (x : outcome A) (k : A -> outcome B) (b : B) :
  bind x k = Ok b -> exists a, x = Ok a /\ k a = Ok b.
Proof. destruct x as [a|e]; cbn; [eauto | discriminate]. Qed.

Lemma floats_eqb_eq (xs ys : list float) : floats_eqb xs ys = true -> xs = ys.
Proof.
  revert ys; induction xs as [|x xs IH]; intros [|y ys]; cbn; try discriminate; auto.
  intros Hb. apply andb_prop in Hb as [Hx Hr].
  apply FloatAxioms.Leibniz.eqb_spec in Hx. f_equal; auto.
Qed.

Lemma Forall_between (lo hi : Z) (l : list Z) :
  forallb (fun i => (lo <=? i) && (i <? hi)) l = true ->
  Forall (fun i => lo <= i < hi) l.
Proof.
  intros Hb. apply List.Forall_forall. intros i Hi.
  rewrite forallb_forall in Hb. specialize (Hb i Hi).
  apply andb_prop in Hb as [Hlo Hhi].
  apply Z.leb_le in Hlo. apply Z.ltb_lt in Hhi. lia.
Qed.

(** ** Binary64 facts *)

Lemma digits2_pos_bounds (p : positive) :
  2 ^ (Z.pos (digits2_pos p) - 1) <= Z.pos p < 2 ^ Z.pos (digits2_pos p).
Proof.
  induction p as [p IH | p IH |]; cbn [digits2_pos].
  - rewrite Pos2Z.inj_succ.
    replace (Z.succ (Z.pos (digits2_pos p)) - 1) with (Z.succ (Z.pos (digits2_pos p) - 1)) by lia.
    rewrite !Z.pow_succ_r by lia. lia.
  - rewrite Pos2Z.inj_succ.
    replace (Z.succ (Z.pos (digits2_pos p)) - 1) with (Z.succ (Z.pos (digits2_pos p) - 1)) by lia.
    rewrite !Z.pow_succ_r by lia. lia.
  - cbn. lia.
Qed.

Lemma digits2_pos_iter_xO (p k : positive) :
  digits2_pos (Pos.iter xO p k) = (digits2_pos p + k)%positive.
Proof.
  induction k as [|k IH] using Pos.peano_ind.
  - cbn. lia.
  - rewrite Pos.iter_succ. cbn [digits2_pos]. rewrite IH. lia.
Qed.

Lemma Zpos_iter_xO (p k : positive) :
  Z.pos (Pos.iter xO p k) = Z.pos p * 2 ^ Z.pos k.
Proof.
  induction k as [|k IH] using Pos.peano_ind.
  - cbn. lia.
  - rewrite Pos.iter_succ, Pos2Z.inj_xO, IH, Pos2Z.inj_succ, Z.pow_succ_r by lia. lia.
Qed.

(** A 53-bit mantissa with an exponent in range is already rounded. *)
Lemma shr_fexp_canonical (m : positive) (e : Z) :
  digits2_pos m = 53%positive -> -1074 <= e ->
  shr_fexp prec emax (Z.pos m) e loc_Exact
  = ({| shr_m := Z.pos m; shr_r := false; shr_s := false |}, e).
Proof.
  intros Hd He. unfold shr_fexp, Zdigits2. rewrite Hd.
  unfold fexp, SpecFloat.emin, prec, emax.
  replace (Z.max (53 + e - 53) (3 - 1024 - 53) - e) with 0 by lia.
  reflexivity.
Qed.

Lemma binary_round_aux_canonical (s : bool) (m : positive) (e : Z) :
  digits2_pos m = 53%positive -> -1074 <= e <= 971 ->
  binary_round_aux prec emax s (Z.pos m) e loc_Exact = S754_finite s m e.
Proof.
  intros Hd He.
  pose proof (shr_fexp_canonical m e Hd (proj1 He)) as Hshift.
  unfold binary_round_aux. rewrite Hshift. cbn [shr_m loc_of_shr_record round_nearest_even].
  rewrite Hshift. cbn [shr_m].
  replace (e <=? emax - prec) with true by (symmetry; apply Z.leb_le; unfold emax, prec; lia).
  reflexivity.
Qed.

(** Python's [float(n)] for [0 < n < 2^53]: the mantissa is [n] shifted up
    to 53 bits, so the value is exactly [n]. *)
Lemma binary_normalize_small (p : positive) :
  Z.pos p < 2 ^ 53 ->
  exists (m : positive) (k : Z),
    binary_normalize prec emax (Z.pos p) 0 false = S754_finite false m (- k)
    /\ digits2_pos m = 53%positive
    /\ 0 <= k <= 52
    /\ Z.pos m = Z.pos p * 2 ^ k.
Proof.
  intros Hp.
  pose proof (digits2_pos_bounds p) as [Hlo Hhi].
  assert (Hd : Z.pos (digits2_pos p) <= 53).
  { destruct (Z_le_gt_dec (Z.pos (digits2_pos p)) 53) as [|Hgt]; [assumption|].
    assert (2 ^ 53 <= 2 ^ (Z.pos (digits2_pos p) - 1)) by (apply Z.pow_le_mono_r; lia).
    lia. }
  unfold binary_normalize, binary_round, shl_align.
  unfold fexp, SpecFloat.emin, prec, emax.
  replace (Z.max (Z.pos (digits2_pos p) + 0 - 53) (3 - 1024 - 53) - 0)
    with (Z.pos (digits2_pos p) - 53) by lia.
  replace (Z.max (Z.pos (digits2_pos p) + 0 - 53) (3 - 1024 - 53))
    with (Z.pos (digits2_pos p) - 53) by lia.
  destruct (Z.pos (digits2_pos p) - 53) as [|q|q] eqn:Hq; [| lia |].
  - assert (Hd53 : digits2_pos p = 53%positive) by (apply Pos2Z.inj; lia).
    exists p, 0. split; [| split; [| split]].
    + apply (binary_round_aux_canonical false p 0); [assumption | lia].
    + assumption.
    + lia.
    + lia.
  - exists (Pos.iter xO p q), (Z.pos q).
    assert (Hdq : digits2_pos (Pos.iter xO p q) = 53%positive).
    { rewrite digits2_pos_iter_xO. apply Pos2Z.inj. rewrite Pos2Z.inj_add. lia. }
    split; [| split; [| split]].
    + replace (Z.neg q) with (- Z.pos q) by reflexivity.
      apply binary_round_aux_canonical; [assumption | lia].
    + assumption.
    + lia.
    + apply Zpos_iter_xO.
Qed.

Lemma Prim2SF_one : Prim2SF 1%float = SF_one.
Proof. vm_compute. reflexivity. Qed.

(** Multiplying a normal value by 1.0 gives it back. *)
Lemma SF64mul_one (s : bool) (m : positive) (e : Z) :
  digits2_pos m = 53%positive -> -1074 <= e <= 971 ->
  SF64mul (S754_finite s m e) SF_one = S754_finite s m e.
Proof.
  intros Hd He. unfold SF64mul, SFmul, SF_one.
  rewrite xorb_false_r, Pos.mul_comm.
  assert (Hshift : shr_fexp prec emax (Z.pos (4503599627370496 * m)) (e + -52) loc_Exact
                   = ({| shr_m := Z.pos m; shr_r := false; shr_s := false |}, e)).
  { change (4503599627370496 * m)%positive with (Pos.iter xO m 52).
    unfold shr_fexp, Zdigits2. rewrite digits2_pos_iter_xO, Hd.
    change (Z.pos (53 + 52)) with 105.
    unfold fexp, SpecFloat.emin, prec, emax.
    replace (Z.max (105 + (e + -52) - 53) (3 - 1024 - 53) - (e + -52)) with 52 by lia.
    unfold shr. cbv [Pos.iter iter_pos shr_1 shr_record_of_loc orb].
    f_equal. lia. }
  unfold binary_round_aux. rewrite Hshift.
  cbn [shr_m loc_of_shr_record round_nearest_even].
  rewrite (shr_fexp_canonical m e Hd (proj1 He)). cbn [shr_m].
  replace (e <=? emax - prec) with true by (symmetry; apply Z.leb_le; unfold emax, prec; lia).
  reflexivity.
Qed.

(** Converting an [int] below 2^53 to float, multiplying by 1.0 and
    truncating gives the [int] back. *)
Lemma trunc_of_Z_mul_one (r : Z) :
  0 <= r < 2 ^ 53 -> F64.trunc (F64.of_Z r * 1)%float = Some r.
Proof.
  intros Hr. destruct r as [|p|p]; [vm_compute; reflexivity | | lia].
  destruct (binary_normalize_small p) as (m & k & Hnorm & Hd & Hk & Hm); [lia|].
  unfold F64.trunc, F64.of_Z.
  rewrite mul_spec, Prim2SF_one, Hnorm.
  rewrite Prim2SF_SF2Prim.
  - assert (He : -1074 <= - k <= 971) by lia.
    rewrite (SF64mul_one false m (- k) Hd He).
    cbn [F64.SF_trunc]. f_equal.
    rewrite Z.shiftl_div_pow2 by lia.
    rewrite Z.opp_involutive, Hm. apply Z.div_mul. apply Z.pow_nonzero; lia.
  - unfold SpecFloat.valid_binary, SpecFloat.bounded, SpecFloat.canonical_mantissa.
    rewrite Hd.
    apply andb_true_intro. split.
    + apply Z.eqb_eq. unfold fexp, SpecFloat.emin, prec, emax. lia.
    + apply Z.leb_le. unfold prec, emax. lia.
Qed.

(** [int(x)] never rounds up: for a non-negative [x] it is the integer
    [z] with [z <= x < z + 1]. *)
Lemma py_int_truncates (x : float) (z : Z) :
  py_int x = Ok z ->
  (0 <= F64.to_Q x)%Q ->
  (inject_Z z <= F64.to_Q x < inject_Z z + 1)%Q.
Proof.
  unfold py_int, F64.trunc, F64.to_Q.
  destruct (Prim2SF x) as [s | s | | s m e]; cbn [F64.SF_trunc F64.SF_to_Q].
  - intros [= <-] _. split; [apply Qle_refl | reflexivity].
  - destruct (is_nan x); discriminate.
  - destruct (is_nan x); discriminate.
  - intros [= <-]. destruct s.
    { intros Hneg. exfalso. revert Hneg.
      destruct (0 <=? e) eqn:He; unfold Qle; cbn; [|lia].
      apply Z.leb_le in He.
      assert (0 < 2 ^ e) by (apply Z.pow_pos_nonneg; lia). nia. }
    intros _. destruct (0 <=? e) eqn:He.
    + apply Z.leb_le in He. rewrite Z.shiftl_mul_pow2 by lia.
      split; [apply Qle_refl|].
      unfold Qlt; cbn. lia.
    + apply Z.leb_gt in He.
      rewrite Z.shiftl_div_pow2 by lia.
      assert (Hd : Z.pos (2 ^ Z.to_pos (- e)) = 2 ^ (- e)).
      { rewrite Pos2Z.inj_pow, Z2Pos.id by lia. reflexivity. }
      assert (Hpos : 0 < 2 ^ (- e)) by (apply Z.pow_pos_nonneg; lia).
      pose proof (Z.mul_div_le (Z.pos m) (2 ^ (- e)) Hpos).
      pose proof (Z.mul_succ_div_gt (Z.pos m) (2 ^ (- e)) Hpos).
      split; [unfold Qle | unfold Qlt]; cbn; rewrite Hd; lia.
Qed.










(** ** The grid *)

Lemma np_arange_candidates : np_arange 424.0 448.1 0.1 = candidates.
Proof. vm_compute. reflexivity. Qed.

Lemma dict_keys_tones : dict_keys tones = candidates.
Proof. vm_compute. reflexivity. Qed.

Lemma candidates_increasing : increasing candidates = true.
Proof. vm_compute. reflexivity. Qed.

(** Every candidate keys its own ladder, of 108 entries. *)
Lemma tones_lookup (frequency : float) :
  In frequency candidates -> dict_get tones frequency = Ok (scale_ladder frequency).
Proof.
  intros Hin.
  assert (Hall : forallb (fun f => match dict_get tones f with
                                   | Ok l => floats_eqb l (scale_ladder f)
                                   | Raise _ => false
                                   end) candidates = true)
    by (vm_compute; reflexivity).
  rewrite forallb_forall in Hall. specialize (Hall _ Hin).
  destruct (dict_get tones frequency) as [l|]; [|discriminate].
  f_equal. now apply floats_eqb_eq.
Qed.

Lemma scale_ladder_length (frequency : float) : length (scale_ladder frequency) = 108%nat.
Proof. unfold scale_ladder. rewrite length_map. reflexivity. Qed.

(** The first 241 candidates are the intended grid: candidate [i] is
    within 1e-11 of [424.0 + i * 0.1] and lies between 424.0 and
    448.0 + 1e-11. *)
Lemma candidates_first_241 :
  forallb (fun i : nat =>
             let c := nth i candidates 0%float in
             let ideal := (424.0 + F64.of_Z (Z.of_nat i) * 0.1)%float in
             (abs (c - ideal) <=? 1e-11)%float
             && (424.0 <=? c)%float && (c <=? 448.0 + 1e-11)%float)
          (seq 0 241) = true.
Proof. vm_compute. reflexivity. Qed.

(** C4: the grid is meant to hold the 241 candidates 424.0 .. 448.0; the
    table the scripts build has 242 entries, the last one 448.1 (in
    binary64, 448.10000000000548), above the interval's upper end, and
    the 241st is 448.00000000000546 rather than 448.0. *)
Theorem tones_has_242_candidates :
  length tones = 242%nat
  /\ dict_keys tones = np_arange 424.0 448.1 0.1
  /\ nth 240 (dict_keys tones) 0%float = 448.00000000000546%float
  /\ nth 241 (dict_keys tones) 0%float = 448.10000000000548%float
  /\ (448.0 <? nth 241 (dict_keys tones) 0)%float = true
  /\ dict_get tones 448.10000000000548%float = Ok (scale_ladder 448.10000000000548%float).
Proof. vm_compute. repeat split; reflexivity. Qed.

(** ** The order of the magnitudes *)

Lemma SFltb_lt3 (x y : spec_float) :
  x <> S754_nan -> y <> S754_nan ->
  (SFltb x y = true <-> lt3 (SF_key x) (SF_key y)).
Proof.
  intros Hx Hy. unfold SFltb, SFcompare.
  destruct x as [sx | sx | | sx mx ex]; [| | congruence |];
    (destruct y as [sy | sy | | sy my ey]; [| | congruence |]);
    try destruct sx; try destruct sy; cbn [SF_key lt3];
    try (split; [discriminate | lia]);
    try (split; [lia | reflexivity]).
  all: change (Pos.compare_cont Eq mx my) with (Pos.compare mx my).
  all: destruct (Z.compare_spec ex ey); destruct (Pos.compare_spec mx my); cbn [CompOpp];
    split; intros; try discriminate; try reflexivity; try lia.
Qed.

Lemma Prim2SF_not_nan (x : float) : is_nan x = false -> Prim2SF x <> S754_nan.
Proof.
  intros Hx. unfold Prim2SF. rewrite Hx.
  destruct (is_zero x); [discriminate|].
  destruct (is_infinity x); [discriminate|].
  destruct (Z.frexp x) as [r exp].
  destruct (shr_fexp prec emax (Uint63Axioms.to_Z (normfr_mantissa r)) (exp - prec) loc_Exact)
    as [shr e'].
  destruct (shr_m shr); discriminate.
Qed.

Lemma float_ltb_lt3 (x y : float) :
  is_nan x = false -> is_nan y = false ->
  ((x <? y)%float = true <-> lt3 (SF_key (Prim2SF x)) (SF_key (Prim2SF y))).
Proof.
  intros Hx Hy. rewrite ltb_spec.
  apply SFltb_lt3; now apply Prim2SF_not_nan.
Qed.

Lemma lt3_trans (a b c : Z * Z * Z) : lt3 a b -> lt3 b c -> lt3 a c.
Proof. destruct a as [[? ?] ?], b as [[? ?] ?], c as [[? ?] ?]. unfold lt3. lia. Qed.

Lemma lt3_split (a b c : Z * Z * Z) : lt3 b a -> lt3 c a \/ lt3 b c.
Proof. destruct a as [[? ?] ?], b as [[? ?] ?], c as [[? ?] ?]. unfold lt3. lia. Qed.

#[export] Instance Z_MagnitudeOrder : MagnitudeOrder Z.
Proof.
  split; cbn; [reflexivity | |]; intros a b c _ _ _.
  - rewrite !Z.gtb_gt. lia.
  - rewrite !Z.gtb_gt. intros Hab. destruct (Z_lt_le_dec c a); [left | right]; lia.
Qed.

#[export] Instance float_MagnitudeOrder : MagnitudeOrder float.
Proof.
  split; cbn; [reflexivity | |]; intros a b c Ha Hb Hc;
    apply negb_true_iff in Ha, Hb, Hc.
  - rewrite !float_ltb_lt3 by assumption. intros Hab Hbc.
    eapply lt3_trans; eassumption.
  - rewrite !float_ltb_lt3 by assumption. apply lt3_split.
Qed.

(** The order of the additions shows in the last bits: 108 times 0.1
    add up to 10.799999999999999 pairwise and to 10.799999999999978 in
    order. *)
Lemma np_sum_pairwise :
  np_sum (repeat 0.1%float 108) = 10.799999999999999%float
  /\ fold_left PrimFloat.add (repeat 0.1%float 108) 0%float = 10.799999999999978%float.
Proof. vm_compute. split; reflexivity. Qed.

(** ** Selection *)

Section Selection.
Context {M : Type} `{MagnitudeOrder M}.

Lemma scores_ordered_cons (score : float -> outcome M) (c : float) (cands : list float)
      (s : M) :
  scores_ordered score (c :: cands) = true -> score c = Ok s ->
  m_ordered s = true /\ scores_ordered score cands = true.
Proof.
  unfold scores_ordered. cbn [forallb]. intros Hall Hs. rewrite Hs in Hall.
  now apply andb_prop in Hall.
Qed.

(** What the replace-on-strictly-greater loop computes from a start
    pair [(m0, r0)]: either no score exceeds [m0] and the pair is
    unchanged, or the result is the first candidate whose score no
    other exceeds. *)
Lemma scan_loop_select (score : float -> outcome M) (cands : list float) :
  scores_ordered score cands = true ->
  forall (m0 : M) (r0 : pynum) (m : M) (r : pynum),
    m_ordered m0 = true ->
    scan_loop score cands (m0, r0) = Ok (m, r) ->
    m_ordered m = true
    /\ exists scores : list M,
        Forall2 (fun c s => score c = Ok s) cands scores
        /\ ((m = m0 /\ r = r0 /\ Forall (fun s => m_gt s m0 = false) scores)
            \/ (exists cs1 c cs2 ss1 ss2,
                   cands = cs1 ++ c :: cs2
                   /\ scores = ss1 ++ m :: ss2
                   /\ length cs1 = length ss1
                   /\ r = NpFloat c
                   /\ m_gt m m0 = true
                   /\ Forall (fun s' => m_gt m s' = true) ss1
                   /\ Forall (fun s' => m_gt s' m = false) ss2)).
Proof.
  induction cands as [|c cands IH]; intros Hord m0 r0 m r Hm0 Hrun; cbn in Hrun.
  - injection Hrun as -> ->. split; [assumption|].
    exists []. split; [constructor|]. left; auto.
  - apply bind_Ok_inv in Hrun as (s & Hs & Hrun).
    destruct (scores_ordered_cons _ _ _ _ Hord Hs) as [Hsok Hord'].
    unfold scan_update in Hrun; cbn [fst] in Hrun.
    destruct (m_gt s m0) eqn:Hgt.
    + apply (IH Hord') in Hrun as (Hmok & scores & Hall & Hsel); [|assumption].
      split; [assumption|].
      exists (s :: scores). split; [constructor; assumption|].
      right. destruct Hsel as [(-> & -> & Hle) | Hsel].
      * exists [], c, cands, [], scores. repeat split; auto.
      * destruct Hsel as (cs1 & c' & cs2 & ss1 & ss2 & -> & -> & Hlen & -> & Hm & Hbefore & Hafter).
        exists (c :: cs1), c', cs2, (s :: ss1), ss2.
        repeat split; cbn; auto.
        eapply (m_gt_trans m s m0); eassumption.
    + apply (IH Hord') in Hrun as (Hmok & scores & Hall & Hsel); [|assumption].
      split; [assumption|].
      exists (s :: scores). split; [constructor; assumption|].
      destruct Hsel as [(-> & -> & Hle) | Hsel].
      * left. repeat split; auto.
      * right.
        destruct Hsel as (cs1 & c' & cs2 & ss1 & ss2 & -> & -> & Hlen & -> & Hm & Hbefore & Hafter).
        exists (c :: cs1), c', cs2, (s :: ss1), ss2.
        repeat split; cbn; auto.
        constructor; [|assumption].
        destruct (m_gt_split m m0 s Hmok Hm0 Hsok Hm) as [Hlt | Hlt];
          [assumption | congruence].
Qed.

(** C1 (amended): whenever the scoring of all candidates succeeds with
    ordered sums (none is NaN), [analyze_tone] returns the initial 0 if
    no candidate's score is strictly positive, and otherwise the first
    candidate, in the ascending scan order of the grid, whose score is
    strictly positive, strictly above the score of every earlier
    candidate and not below the score of any later one. *)
Theorem analyze_tone_scan_selects
        (sample_rate samples_len : Z) (fft_normed : ndarray M) (r : pynum) :
  scores_ordered (tone_score sample_rate samples_len fft_normed) candidates = true ->
  analyze_tone_scan sample_rate samples_len fft_normed = Ok r ->
  selected (tone_score sample_rate samples_len fft_normed) candidates r.
Proof.
  unfold analyze_tone_scan, selected. rewrite np_arange_candidates. intros Hord Hrun.
  apply bind_Ok_inv in Hrun as ([m r'] & Hrun & Hret).
  cbn in Hret. injection Hret as <-.
  apply (scan_loop_select _ _ Hord) in Hrun as (_ & scores & Hall & Hsel);
    [|apply m_zero_ordered].
  exists scores. split; [assumption|].
  destruct Hsel as [(_ & -> & Hle) | Hsel]; [left; auto|].
  destruct Hsel as (cs1 & c & cs2 & ss1 & ss2 & Hc & Hs & Hlen & -> & Hm & Hbefore & Hafter).
  right. exists cs1, c, cs2, ss1, m, ss2. repeat split; assumption.
Qed.

End Selection.

(** A spectrum with one line at bin 44500 (445 Hz at 0.01 Hz per bin):
    the scan returns the candidate 445.0 of the grid. *)
Lemma analyze_tone_scan_selects_witness :
  let spectrum := line_spectrum 4410000 44500 1%float 0%float in
  scores_ordered (tone_score 44100 4410000 spectrum) candidates = true
  /\ analyze_tone_scan 44100 4410000 spectrum = Ok (NpFloat 445.00000000000477%float)
  /\ selected (tone_score 44100 4410000 spectrum) candidates
              (NpFloat 445.00000000000477%float).
Proof.
  assert (Hord : scores_ordered
                   (tone_score 44100 4410000 (line_spectrum 4410000 44500 1%float 0%float))
                   candidates = true) by (vm_compute; reflexivity).
  assert (Hrun : analyze_tone_scan 44100 4410000
                                   (line_spectrum 4410000 44500 1%float 0%float)
                 = Ok (NpFloat 445.00000000000477%float)) by (vm_compute; reflexivity).
  split; [exact Hord|]. split; [exact Hrun|].
  exact (analyze_tone_scan_selects 44100 4410000
           (line_spectrum 4410000 44500 1%float 0%float) _ Hord Hrun).
Defined.

(** C1 as stated fails on a silent buffer: its normalised spectrum is
    zero everywhere, no sum is strictly greater than the initial 0, and
    the value returned is the initial 0, which is no candidate and lies
    outside [424.0, 448.0]. *)
Lemma analyze_tone_scan_silence :
  exists r : pynum,
    analyze_tone_scan 44100 4410000 (constant_spectrum 4410000 0%float) = Ok r
    /\ r = PyInt 0
    /\ in_424_448 r = false.
Proof. exists (PyInt 0). vm_compute. repeat split; reflexivity. Qed.

(** ** Spectrum indexing *)

Section Indexing.
Context {M : Type} `{Magnitude M}.

Lemma np_take_in_range (a : ndarray M) (indices : list Z) :
  Forall (fun i => 0 <= i < shape0 a) indices ->
  np_take a indices = Ok (map (item a) indices).
Proof.
  induction 1 as [|i rest Hi _ IH]; cbn; [reflexivity|].
  unfold np_index.
  replace ((0 <=? i) && (i <? shape0 a)) with true
    by (symmetry; apply andb_true_intro; split; [apply Z.leb_le | apply Z.ltb_lt]; lia).
  cbn. rewrite IH. reflexivity.
Qed.

Lemma np_index_outcome (a : ndarray M) (i : Z) :
  (exists x, np_index a i = Ok x) \/ np_index a i = Raise IndexError.
Proof.
  unfold np_index.
  destruct ((0 <=? i) && (i <? shape0 a)); [left; eauto|].
  destruct ((- shape0 a <=? i) && (i <? 0)); [left; eauto | right; reflexivity].
Qed.

Lemma np_take_outcome (a : ndarray M) (indices : list Z) :
  (exists xs, np_take a indices = Ok xs) \/ np_take a indices = Raise IndexError.
Proof.
  induction indices as [|i rest IH]; cbn; [left; eauto|].
  destruct (np_index_outcome a i) as [[x ->] | ->]; cbn; [|right; reflexivity].
  destruct IH as [[xs ->] | ->]; cbn; [left; eauto | right; reflexivity].
Qed.

Lemma np_take_out_of_range (a : ndarray M) (indices : list Z) :
  Exists (fun i => i < - shape0 a \/ shape0 a <= i) indices ->
  np_take a indices = Raise IndexError.
Proof.
  induction 1 as [i rest Hi | i rest _ IH]; cbn.
  - unfold np_index.
    replace ((0 <=? i) && (i <? shape0 a)) with false
      by (symmetry; apply andb_false_iff; rewrite Z.leb_gt, Z.ltb_ge; lia).
    replace ((- shape0 a <=? i) && (i <? 0)) with false
      by (symmetry; apply andb_false_iff; rewrite Z.leb_gt, Z.ltb_ge; lia).
    reflexivity.
  - destruct (np_index_outcome a i) as [[x ->] | ->]; cbn; [|reflexivity].
    rewrite IH. reflexivity.
Qed.

Lemma tone_score_outcome (sample_rate samples_len : Z) (fft_normed : ndarray M)
      (freqstep frequency : float) :
  py_truediv sample_rate samples_len = Ok freqstep ->
  In frequency candidates ->
  (exists s, tone_score sample_rate samples_len fft_normed frequency = Ok s)
  \/ tone_score sample_rate samples_len fft_normed frequency = Raise IndexError.
Proof.
  intros Hstep Hin. unfold tone_score.
  rewrite (tones_lookup _ Hin), Hstep. cbn [bind].
  destruct (np_take_outcome fft_normed (tone_indices (scale_ladder frequency) freqstep))
    as [[xs ->] | ->]; cbn; [left; eauto | right; reflexivity].
Qed.

(** One failing candidate fails the whole scan. *)
Lemma scan_loop_raises (score : float -> outcome M) (cands : list float) :
  Forall (fun c => (exists s, score c = Ok s) \/ score c = Raise IndexError) cands ->
  Exists (fun c => score c = Raise IndexError) cands ->
  forall st, scan_loop score cands st = Raise IndexError.
Proof.
  induction cands as [|c cands IH]; intros Hall Hex st.
  - inversion Hex.
  - inversion Hall as [|? ? Hc Hrest]; subst. cbn.
    destruct Hc as [[s Hs] | Hs]; rewrite Hs; cbn; [|reflexivity].
    inversion Hex as [? ? Hbad | ? ? Hlater]; subst; [congruence|].
    apply IH; assumption.
Qed.

(** C2 (amended): the scoring has no bounds clamp.  For a candidate of
    the grid, when all 108 bin indices lie inside the spectrum the
    score is the sum of the magnitudes at these indices; when one of
    them lies outside, indexing raises [IndexError], for that candidate
    and so for the whole detection, rather than contributing zero. *)
Theorem tone_score_index_bounds (sample_rate samples_len : Z) (fft_normed : ndarray M)
        (freqstep frequency : float) :
  py_truediv sample_rate samples_len = Ok freqstep ->
  In frequency candidates ->
  let indices := tone_indices (scale_ladder frequency) freqstep in
  (Forall (fun i => 0 <= i < shape0 fft_normed) indices ->
   tone_score sample_rate samples_len fft_normed frequency
   = Ok (np_sum (map (item fft_normed) indices)))
  /\ (Exists (fun i => i < - shape0 fft_normed \/ shape0 fft_normed <= i) indices ->
      tone_score sample_rate samples_len fft_normed frequency = Raise IndexError
      /\ analyze_tone_scan sample_rate samples_len fft_normed = Raise IndexError).
Proof.
  intros Hstep Hin indices. subst indices. split.
  - intros Hall. unfold tone_score.
    rewrite (tones_lookup _ Hin), Hstep. cbn [bind].
    rewrite (np_take_in_range _ _ Hall). reflexivity.
  - intros Hex.
    assert (Hbad : tone_score sample_rate samples_len fft_normed frequency
                   = Raise IndexError).
    { unfold tone_score. rewrite (tones_lookup _ Hin), Hstep. cbn [bind].
      rewrite (np_take_out_of_range _ _ Hex). reflexivity. }
    split; [exact Hbad|].
    unfold analyze_tone_scan. rewrite np_arange_candidates.
    rewrite (scan_loop_raises (tone_score sample_rate samples_len fft_normed) candidates).
    + reflexivity.
    + apply List.Forall_forall. intros c Hc. eapply tone_score_outcome; eassumption.
    + apply List.Exists_exists. exists frequency. split; assumption.
Qed.

End Indexing.

(** At 44.1 kHz and a 100 s window every index of the lowest candidate is
    inside the spectrum. *)
Lemma tone_score_index_bounds_witness :
  py_truediv 44100 4410000 = Ok 0.01%float
  /\ In 424%float candidates
  /\ tone_score 44100 4410000 (constant_spectrum 4410000 1%float) 424%float
     = Ok 108%float.
Proof.
  split; [vm_compute; reflexivity|].
  split; [left; reflexivity|].
  refine (proj1 (tone_score_index_bounds 44100 4410000
                   (constant_spectrum 4410000 1%float) 0.01 424 _ _) _).
  - vm_compute; reflexivity.
  - left; reflexivity.
  - apply Forall_between. vm_compute. reflexivity.
Defined.

(** C2 as stated fails at an 8 kHz recording of 101 s or more: the
    window has 800000 samples, [freqstep] is 0.01, and the top note of
    candidate 448.0 maps to bin 804581.  The clamped rule of the design
    document would score 107 there; the scripts raise [IndexError]. *)
Lemma tone_score_8kHz_raises :
  let c := nth 240 candidates 0%float in
  py_truediv 8000 800000 = Ok 0.01%float
  /\ List.last (tone_indices (scale_ladder c) 0.01) 0 = 804581
  /\ clamped_tone_score 8000 800000 (constant_spectrum 800000 1%float) c = Ok 107%float
  /\ tone_score 8000 800000 (constant_spectrum 800000 1%float) c = Raise IndexError
  /\ analyze_tone_scan 8000 800000 (constant_spectrum 800000 1%float) = Raise IndexError.
Proof. vm_compute. repeat split; reflexivity. Qed.

(** ** Padding and windowing *)

Section Padding.
Context {lib : AudioLib} {M : Type} `{Magnitude M} {spectrum : Spectrum M}.


End Padding.






(** An input of exactly 80 s is padded with 40000 ms: here nothing is
    lost to the truncation. *)
Lemma analyze_tone_pad_80_seconds :
  let song := silence_buffer 8000 640000 in
  duration_seconds song = 80%float
  /\ py_int ((120.0 - duration_seconds song) * 1000)%float = Ok 40000.
Proof.
  assert (Hd : duration_seconds (silence_buffer 8000 640000) = 80%float)
    by (vm_compute; reflexivity).
  cbv zeta. rewrite Hd. split; vm_compute; reflexivity.
Qed.

(** The product is a binary64 value, not the exact one.  At 32584
    frames at 8 kHz, exactly 4.073 s, the exact product
    [(120 - 4.073) * 1000] is the whole number 115927, the binary64
    product is 115926.99999999999 and the silence is 115926 ms.  At
    438344 frames the silence, 65206 ms, is short by a millisecond and
    more even of the exact product taken from the binary64 duration. *)
Lemma analyze_tone_pad_rounding :
  let song := silence_buffer 8000 32584 in
  let song' := silence_buffer 8000 438344 in
  (duration_seconds song = 4.073%float
   /\ ((120.0 - duration_seconds song) * 1000)%float = 115926.99999999999%float
   /\ (forall lib : AudioLib,
         @analyze_tone_pad lib song = Ok (seg_add song (silent 115926)))
   /\ ((120 - (32584 # 8000)) * 1000 == 115927)%Q)
  /\ (duration_seconds song' = 54.793%float
      /\ (forall lib : AudioLib,
            @analyze_tone_pad lib song' = Ok (seg_add song' (silent 65206)))
      /\ (inject_Z 65206 + 1 <= (120 - F64.to_Q (duration_seconds song')) * 1000)%Q).
Proof.
  assert (Hd : duration_seconds (silence_buffer 8000 32584) = 4.073%float)
    by (vm_compute; reflexivity).
  assert (Hd' : duration_seconds (silence_buffer 8000 438344) = 54.793%float)
    by (vm_compute; reflexivity).
  cbv zeta. unfold analyze_tone_pad. rewrite Hd, Hd'.
  generalize (silence_buffer 8000 32584) (silence_buffer 8000 438344). intros song song'.
  replace (4.073 <? 101)%float with true by (vm_compute; reflexivity).
  replace (54.793 <? 101)%float with true by (vm_compute; reflexivity).
  replace (py_int ((120.0 - 4.073) * 1000)%float) with (Ok 115926)
    by (vm_compute; reflexivity).
  replace (py_int ((120.0 - 54.793) * 1000)%float) with (Ok 65206)
    by (vm_compute; reflexivity).
  split; [|split; [reflexivity|split; [reflexivity|]]].
  - split; [reflexivity|]. split; [vm_compute; reflexivity|].
    split; [reflexivity|]. reflexivity.
  - vm_compute. discriminate.
Qed.

(** ** The resampler *)

(** One second at 44100 Hz, relabelled with the ratio for 445.0. *)
Lemma altered_one_second :
  sound_with_altered_frame_rate (silence_buffer 44100 44100) 0.97078651685393258%float
  = Ok (spawn (silence_buffer 44100 44100) (raw_data (silence_buffer 44100 44100)) 42811).
Proof.
  unfold sound_with_altered_frame_rate.
  replace (py_int (F64.of_Z (frame_rate (silence_buffer 44100 44100))
                   * 0.97078651685393258)%float)
    with (Ok 42811) by (vm_compute; reflexivity).
  reflexivity.
Qed.

Section Resampler.
Context {lib : AudioLib}.

(** C5 (amended): [speed_change] leaves the samples and their format
    untouched and relabels the frame rate as
    [int(native_rate * ratio)], the product truncated to an integer:
    the new rate never exceeds [native_rate * ratio] and is less than
    one below it, so the duration before resampling is
    [frame_count / int(native_rate * ratio)], which is
    [original_duration / ratio] only up to that truncation.  The
    relabelled buffer is then handed to the resampler.  For a detected
    tone of 445.0 the ratio is 432.0 / 445.0 = 0.970786..., and one
    second at 44100 Hz is relabelled to 42811 Hz and lasts longer than
    the original. *)
Theorem speed_change_truncates_rate
        (sound : AudioSegment) (speed : float) (target_sample_rate : Z)
        (out : AudioSegment) :
  speed_change sound speed target_sample_rate = Ok out ->
  (exists rate : Z,
      py_int (F64.of_Z (frame_rate sound) * speed)%float = Ok rate
      /\ ((0 <= F64.to_Q (F64.of_Z (frame_rate sound) * speed)%float)%Q ->
          (inject_Z rate <= F64.to_Q (F64.of_Z (frame_rate sound) * speed)%float
           < inject_Z rate + 1)%Q)
      /\ out = set_frame_rate
                 {| raw_data := raw_data sound; sample_width := sample_width sound;
                    frame_rate := rate; channels := channels sound |}
                 target_sample_rate)
  /\ speed_ratio (NpFloat 445.0) = Ok 0.97078651685393258%float
  /\ (exists altered,
         sound_with_altered_frame_rate (silence_buffer 44100 44100)
                                       0.97078651685393258%float = Ok altered
         /\ frame_rate altered = 42811
         /\ (duration_seconds (silence_buffer 44100 44100)
             <? duration_seconds altered)%float = true).
Proof.
  intros Hrun. split; [|split].
  - unfold speed_change, sound_with_altered_frame_rate in Hrun.
    apply bind_Ok_inv in Hrun as (altered & Halt & [= <-]).
    apply bind_Ok_inv in Halt as (rate & Hrate & [= <-]).
    exists rate. split; [assumption|]. split; [|reflexivity].
    intros Hnn. now apply py_int_truncates.
  - vm_compute. reflexivity.
  - exists (spawn (silence_buffer 44100 44100)
                  (raw_data (silence_buffer 44100 44100)) 42811).
    split; [exact altered_one_second|]. split; vm_compute; reflexivity.
Qed.

(** C6: with ratio 1.0 and the target rate equal to the buffer's own
    rate, [speed_change] relabels the buffer with the rate it already
    has and asks the resampler for that same rate; the resampler
    returns a buffer unchanged when asked for its own rate, so the
    output is the input, samples and format. *)
Theorem speed_change_identity (sound : AudioSegment) :
  (forall s : AudioSegment, set_frame_rate s (frame_rate s) = s) ->
  0 <= frame_rate sound < 2 ^ 53 ->
  speed_change sound 1.0 (frame_rate sound) = Ok sound.
Proof.
  intros Hsame Hrate. unfold speed_change, sound_with_altered_frame_rate, py_int.
  rewrite (trunc_of_Z_mul_one _ Hrate). cbn [bind].
  replace (spawn sound (raw_data sound) (frame_rate sound)) with sound
    by (destruct sound; reflexivity).
  rewrite Hsame. reflexivity.
Qed.

End Resampler.

Lemma speed_change_truncates_rate_witness :
  speed_change (lib := bare_lib) (silence_buffer 44100 4) 0.97078651685393258 48000
  = Ok (spawn (silence_buffer 44100 4) (raw_data (silence_buffer 44100 4)) 48000)
  /\ exists rate : Z,
      py_int (F64.of_Z 44100 * 0.97078651685393258)%float = Ok rate.
Proof.
  split; [vm_compute; reflexivity|].
  destruct (speed_change_truncates_rate (lib := bare_lib) (silence_buffer 44100 4)
              0.97078651685393258 48000
              (spawn (silence_buffer 44100 4) (raw_data (silence_buffer 44100 4)) 48000))
    as [(rate & Hrate & _) _]; [vm_compute; reflexivity|].
  exists rate. exact Hrate.
Defined.

Lemma speed_change_identity_witness :
  (forall s : AudioSegment, set_frame_rate (AudioLib := bare_lib) s (frame_rate s) = s)
  /\ 0 <= frame_rate (silence_buffer 44100 4) < 2 ^ 53
  /\ speed_change (lib := bare_lib) (silence_buffer 44100 4) 1.0 44100
     = Ok (silence_buffer 44100 4).
Proof.
  assert (Hsame : forall s : AudioSegment,
             set_frame_rate (AudioLib := bare_lib) s (frame_rate s) = s)
    by (intros s; cbn; rewrite Z.eqb_refl; reflexivity).
  assert (Hrate : 0 <= frame_rate (silence_buffer 44100 4) < 2 ^ 53) by (cbn; lia).
  split; [exact Hsame|]. split; [exact Hrate|].
  exact (speed_change_identity (lib := bare_lib) (silence_buffer 44100 4) Hsame Hrate).
Defined.

(** C5 as stated fails on one second of audio at 44100 Hz with the ratio
    for 445.0 -> 432.0: the rate becomes 42811, not 44100 * ratio =
    42811.685..., and the duration 1.0301090... s, not
    [original_duration / ratio] = 1.0300925... s. *)
Lemma speed_change_duration_differs :
  let sound := silence_buffer 44100 44100 in
  let ratio := 0.97078651685393258%float in
  speed_ratio (NpFloat 445.0) = Ok ratio
  /\ (F64.of_Z (frame_rate sound) * ratio)%float = 42811.685393258427%float
  /\ sound_with_altered_frame_rate sound ratio = Ok (spawn sound (raw_data sound) 42811)
  /\ duration_seconds sound = 1%float
  /\ duration_seconds (spawn sound (raw_data sound) 42811) = 1.030109084113896%float
  /\ (duration_seconds sound / ratio)%float = 1.0300925925925926%float.
Proof.
  cbv zeta. split; [vm_compute; reflexivity|]. split; [vm_compute; reflexivity|].
  split; [exact altered_one_second|]. repeat split; vm_compute; reflexivity.
Qed.


(** ** Batch selection *)

Lemma append_empty_l (s : string) : ("" ++ s)%string = s.
Proof. reflexivity. Qed.

Lemma append_String_l (c : ascii) (s t : string) :
  (String c s ++ t)%string = String c (s ++ t)%string.
Proof. reflexivity. Qed.

Lemma endswith_spec (s suffix : string) :
  endswith s suffix = true <-> exists pre : string, s = (pre ++ suffix)%string.
Proof.
  induction s as [|c rest IH]; cbn [endswith].
  - destruct (String.eqb_spec "" suffix) as [<- | Hne].
    + split; [exists ""%string; reflexivity | reflexivity].
    + split; [discriminate|].
      intros [[|c pre] Hpre].
      * rewrite append_empty_l in Hpre. congruence.
      * rewrite append_String_l in Hpre. discriminate.
  - destruct (String.eqb_spec (String c rest) suffix) as [<- | Hne].
    + split; [exists ""%string; reflexivity | reflexivity].
    + rewrite IH. split.
      * intros [pre ->]. exists (String c pre). reflexivity.
      * intros [[|c' pre] Hpre].
        -- rewrite append_empty_l in Hpre. congruence.
        -- rewrite append_String_l in Hpre.
           injection Hpre as _ ->. exists pre. reflexivity.
Qed.

Lemma startswith_spec (s pre : string) :
  startswith s pre = true <-> exists rest : string, s = (pre ++ rest)%string.
Proof.
  revert s. induction pre as [|c pre IH]; intros s; cbn [startswith].
  - split; [exists s; reflexivity | reflexivity].
  - destruct s as [|c' s].
    + split; [discriminate | intros [rest Hrest]; discriminate].
    + rewrite andb_true_iff, IH, Ascii.eqb_eq. split.
      * intros [<- [rest ->]]. exists rest. reflexivity.
      * intros [rest Hrest]. rewrite append_String_l in Hrest.
        injection Hrest as -> ->. split; [reflexivity | exists rest; reflexivity].
Qed.

Lemma SUPPORTED_FORMATS_extensions (suffix : string) :
  In suffix SUPPORTED_FORMATS
  <-> exists ext : string, In ext supported_extensions /\ suffix = ("." ++ ext)%string.
Proof.
  split.
  - intros Hin. cbn in Hin.
    repeat (destruct Hin as [<- | Hin];
            [eexists; split; [|reflexivity]; cbn; tauto|]).
    destruct Hin.
  - intros (ext & Hin & ->). cbn in Hin.
    repeat (destruct Hin as [<- | Hin]; [cbn; tauto|]).
    destruct Hin.
Qed.

(** C8: batch mode selects, in the order of the listing, exactly the
    names whose lower-cased form ends in a dot and one of the seven
    supported extensions and which do not start with [432hz_]. *)
Theorem files_to_convert_spec (listing : list string) (f : string) :
  In f (files_to_convert listing)
  <-> In f listing
      /\ (exists stem ext : string,
             In ext supported_extensions /\ lower f = (stem ++ "." ++ ext)%string)
      /\ ~ (exists rest : string, f = ("432hz_" ++ rest)%string).
Proof.
  unfold files_to_convert, batch_selected, endswith_any.
  rewrite filter_In, andb_true_iff, negb_true_iff, existsb_exists.
  rewrite <- not_true_iff_false, startswith_spec.
  split.
  - intros (Hin & (suffix & Hsuf & Hend) & Hpre).
    apply SUPPORTED_FORMATS_extensions in Hsuf as (ext & Hext & ->).
    apply endswith_spec in Hend as [stem Hstem].
    repeat split; auto. exists stem, ext. auto.
  - intros (Hin & (stem & ext & Hext & Hlow) & Hpre).
    repeat split; auto.
    exists ("." ++ ext)%string. split.
    + apply SUPPORTED_FORMATS_extensions. exists ext. auto.
    + apply endswith_spec. exists stem. exact Hlow.
Qed.

(** The selection keeps the order of the listing and never contains a
    previous output. *)
Lemma files_to_convert_examples :
  files_to_convert ["b.WAV"; "432hz_b.mp3"; "notes.txt"; "a.mp3"; "432hz_a.flac"]%string
  = ["b.WAV"; "a.mp3"]%string.
Proof. reflexivity. Qed.


(** ** Exceptions of the engine *)

Lemma raises_Exception_only_bind {A B : Type} (x : outcome A) (k : A -> outcome B) :
  raises_Exception_only x ->
  (forall a, raises_Exception_only (k a)) ->
  raises_Exception_only (bind x k).
Proof.
  intros Hx Hk e. destruct x as [a|e']; cbn [bind]; [exact (Hk a e)|].
  intros [= ->]. exact (Hx e eq_refl).
Qed.

Lemma raises_Exception_only_Ok {A : Type} (a : A) : raises_Exception_only (Ok a).
Proof. intros e [=]. Qed.

Lemma py_int_Exception (x : float) : raises_Exception_only (py_int x).
Proof.
  unfold py_int. destruct (F64.trunc x); [apply raises_Exception_only_Ok|].
  destruct (is_nan x); intros e [= <-]; reflexivity.
Qed.

Lemma py_truediv_Exception (a b : Z) : raises_Exception_only (py_truediv a b).
Proof.
  unfold py_truediv. destruct (b =? 0); [intros e [= <-]; reflexivity|].
  apply raises_Exception_only_Ok.
Qed.

Lemma dict_get_Exception {V : Type} (d : pydict V) (k : float) :
  raises_Exception_only (dict_get d k).
Proof.
  induction d as [|[k' v] d IH]; cbn; [intros e [= <-]; reflexivity|].
  destruct (k' =? k)%float; [apply raises_Exception_only_Ok | exact IH].
Qed.

Lemma np_take_Exception {A : Type} (a : ndarray A) (indices : list Z) :
  raises_Exception_only (np_take a indices).
Proof.
  induction indices as [|i rest IH]; cbn [np_take]; [apply raises_Exception_only_Ok|].
  apply raises_Exception_only_bind.
  - unfold np_index.
    destruct ((0 <=? i) && (i <? shape0 a)); [apply raises_Exception_only_Ok|].
    destruct ((- shape0 a <=? i) && (i <? 0)); [apply raises_Exception_only_Ok|].
    intros e [= <-]; reflexivity.
  - intros x. apply raises_Exception_only_bind; [exact IH|].
    intros xs. apply raises_Exception_only_Ok.
Qed.

Section EngineExceptions.
Context {lib : AudioLib} {M : Type} `{Magnitude M} {spectrum : Spectrum M}.

Lemma tone_score_Exception (sample_rate samples_len : Z) (fft : ndarray M) (frequency : float) :
  raises_Exception_only (tone_score sample_rate samples_len fft frequency).
Proof.
  unfold tone_score.
  apply raises_Exception_only_bind; [apply dict_get_Exception|]. intros tone.
  apply raises_Exception_only_bind; [apply py_truediv_Exception|]. intros freqstep.
  apply raises_Exception_only_bind; [apply np_take_Exception|]. intros picked.
  apply raises_Exception_only_Ok.
Qed.

Lemma scan_loop_Exception (score : float -> outcome M) (cands : list float) :
  (forall c, raises_Exception_only (score c)) ->
  forall st, raises_Exception_only (scan_loop score cands st).
Proof.
  intros Hscore. induction cands as [|c cands IH]; intros st; cbn [scan_loop].
  - apply raises_Exception_only_Ok.
  - apply raises_Exception_only_bind; [apply Hscore|]. intros s. apply IH.
Qed.

Lemma analyze_tone_Exception (song : AudioSegment) :
  raises_Exception_only (analyze_tone song).
Proof.
  unfold analyze_tone, analyze_tone_samples, analyze_tone_pad.
  apply raises_Exception_only_bind.
  - apply raises_Exception_only_bind.
    + destruct (duration_seconds song <? 101)%float; [|apply raises_Exception_only_Ok].
      apply raises_Exception_only_bind; [apply py_int_Exception|].
      intros pad_ms. apply raises_Exception_only_Ok.
    + intros audio. apply raises_Exception_only_Ok.
  - intros samples. unfold analyze_tone_scan.
    apply raises_Exception_only_bind.
    + apply scan_loop_Exception. intros c. apply tone_score_Exception.
    + intros st. apply raises_Exception_only_Ok.
Qed.

Lemma speed_ratio_Exception (tone : pynum) : raises_Exception_only (speed_ratio tone).
Proof.
  destruct tone as [z|f]; cbn; [|apply raises_Exception_only_Ok].
  destruct (z =? 0); [intros e [= <-]; reflexivity | apply raises_Exception_only_Ok].
Qed.

Lemma speed_change_Exception (sound : AudioSegment) (speed : float) (rate : Z) :
  raises_Exception_only (speed_change sound speed rate).
Proof.
  unfold speed_change, sound_with_altered_frame_rate.
  apply raises_Exception_only_bind.
  - apply raises_Exception_only_bind; [apply py_int_Exception|].
    intros r. apply raises_Exception_only_Ok.
  - intros altered. apply raises_Exception_only_Ok.
Qed.

End EngineExceptions.

(** ** Containment of programs *)

Lemma contained_ret {A : Type} (a : A) : contained (ret a).
Proof. intros fs fs' printed e [=]. Qed.

Lemma contained_get_fs : contained get_fs.
Proof. intros fs fs' printed e [=]. Qed.

Lemma contained_lift {A : Type} (x : outcome A) :
  raises_Exception_only x -> contained (lift x).
Proof. intros Hx fs fs' printed e [= <- <- Hr]. exact (Hx e Hr). Qed.

Lemma contained_seq {A B : Type} (p : prog A) (k : A -> prog B) :
  contained p -> (forall a, contained (k a)) -> contained (seq_prog p k).
Proof.
  intros Hp Hk fs fs' printed e. unfold seq_prog.
  destruct (p fs) as [[fs1 out1] [a|e1]] eqn:Hrun.
  - destruct (k a fs1) as [[fs2 out2] r2] eqn:Hrun2.
    intros [= <- <- ->]. exact (Hk _ _ _ _ _ Hrun2).
  - intros [= <- <- <-]. exact (Hp _ _ _ _ Hrun).
Qed.

Lemma contained_when (b : bool) (p : prog unit) : contained p -> contained (when b p).
Proof. destruct b; cbn; [auto | intros _; apply contained_ret]. Qed.

Section Containment.
Context {lib : AudioLib} {M : Type} `{Magnitude M} {spectrum : Spectrum M}.
Context {codec : Codec} {console : Console}.

(** The console takes every line. *)
Hypothesis console_prints : forall m : message, write_fails m = None.

(** The collaborators fail with exceptions deriving from [Exception]. *)
Hypothesis from_file_Exception :
  forall (p : string) (fs : FileSystem), raises_Exception_only (from_file p fs).
Hypothesis export_Exception :
  forall (seg : AudioSegment) (output_file target_format target_bitrate : string)
         (fs : FileSystem),
    raises_Exception_only (snd (export seg output_file target_format target_bitrate fs)).

Lemma print_prints (m : message) (fs : FileSystem) : print m fs = (fs, [m], Ok tt).
Proof. unfold print. rewrite console_prints. reflexivity. Qed.

Lemma when_prints (which : script) (m : message) (fs : FileSystem) :
  when (is_commandconverter432 which) (print m) fs
  = (fs, only_commandconverter432 which [m], Ok tt).
Proof. destruct which; cbn [is_commandconverter432 when]; [reflexivity | apply print_prints]. Qed.

Lemma contained_print (m : message) : contained (print m).
Proof. intros fs fs' printed e. rewrite print_prints. discriminate. Qed.

Lemma contained_decode (input_file : string) : contained (decode input_file).
Proof. intros fs fs' printed e [= <- <- Hr]. exact (from_file_Exception _ _ e Hr). Qed.

Lemma contained_encode (seg : AudioSegment) (output_file target_format target_bitrate : string) :
  contained (encode seg output_file target_format target_bitrate).
Proof.
  intros fs fs' printed e. unfold encode.
  pose proof (export_Exception seg output_file target_format target_bitrate fs) as Hexp.
  destruct (export seg output_file target_format target_bitrate fs) as [fs1 r1].
  intros [= <- <- Hr]. exact (Hexp e Hr).
Qed.

Lemma contained_convert_body (which : script) (input_file : string)
      (output_folder : option string) (target_format target_bitrate : string)
      (target_sample_rate : Z) :
  contained (convert_body which input_file output_folder target_format target_bitrate
                          target_sample_rate).
Proof.
  unfold convert_body.
  destruct (negb (endswith_any (lower input_file) SUPPORTED_FORMATS));
    [apply contained_print|].
  apply contained_seq; [apply contained_get_fs|]. intros fs.
  destruct (path_exists _ fs); [apply contained_print|].
  apply contained_seq; [apply contained_print|]. intros _.
  apply contained_seq; [apply contained_decode|]. intros song.
  apply contained_seq; [apply contained_lift, analyze_tone_Exception|]. intros tone.
  apply contained_seq; [apply contained_print|]. intros _.
  apply contained_seq; [apply contained_lift, speed_ratio_Exception|]. intros ratio.
  apply contained_seq; [apply contained_when, contained_print|]. intros _.
  apply contained_seq; [apply contained_lift, speed_change_Exception|]. intros new_song.
  apply contained_seq; [apply contained_when, contained_print|]. intros _.
  apply contained_seq; [apply contained_encode|]. intros _.
  apply contained_print.
Qed.

(** What the [try] does with the outcome of its body: an exception is
    reported with the error line, after what the body printed, and the
    function returns normally, the file system as the body left it. *)
Lemma convert_to_432hz_catches (which : script) (input_file : string)
      (output_folder : option string) (target_format target_bitrate : string)
      (target_sample_rate : Z) (fs fs1 : FileSystem) (out1 : list message)
      (r : outcome unit) :
  convert_body which input_file output_folder target_format target_bitrate
               target_sample_rate fs = (fs1, out1, r) ->
  convert_to_432hz which input_file output_folder target_format target_bitrate
                   target_sample_rate fs
  = (fs1, out1 ++ match r with Ok _ => [] | Raise e => [MsgError input_file e] end, Ok tt).
Proof.
  intros Hbody. unfold convert_to_432hz, try_except_Exception. rewrite Hbody.
  destruct r as [[]|e].
  - rewrite app_nil_r. reflexivity.
  - rewrite (contained_convert_body _ _ _ _ _ _ _ _ _ _ Hbody), print_prints. reflexivity.
Qed.

(** [convert_to_432hz] returns normally. *)
Lemma convert_to_432hz_returns (which : script) (input_file : string)
      (output_folder : option string) (target_format target_bitrate : string)
      (target_sample_rate : Z) (fs : FileSystem) :
  exists fs' printed,
    convert_to_432hz which input_file output_folder target_format target_bitrate
                     target_sample_rate fs = (fs', printed, Ok tt).
Proof.
  destruct (convert_body which input_file output_folder target_format target_bitrate
                         target_sample_rate fs) as [[fs1 out1] r] eqn:Hbody.
  rewrite (convert_to_432hz_catches _ _ _ _ _ _ _ _ _ _ Hbody). eauto.
Qed.

(** The loop of a batch converts the files in turn. *)
Lemma batch_loop_in_turn (which : script) (directory : string)
      (output_folder : option string) (target_format target_bitrate : string)
      (target_sample_rate : Z) (total : Z) (names : list string) :
  forall (i : Z) (fs : FileSystem),
    batch_loop which directory output_folder target_format target_bitrate
               target_sample_rate i total names fs
    = (fst (convert_in_turn which directory output_folder target_format target_bitrate
                            target_sample_rate i total names fs),
       snd (convert_in_turn which directory output_folder target_format target_bitrate
                            target_sample_rate i total names fs),
       Ok tt).
Proof.
  induction names as [|filename rest IH]; intros i fs;
    cbn [batch_loop convert_in_turn]; [reflexivity|].
  unfold seq_prog at 1. rewrite print_prints.
  unfold seq_prog at 1.
  destruct (convert_to_432hz_returns which (os_path_join directory filename)
              output_folder target_format target_bitrate target_sample_rate fs)
    as (fs1 & out1 & Hrun).
  rewrite Hrun. unfold final_fs, printed_of. cbn [fst snd].
  unfold seq_prog at 1. rewrite when_prints.
  rewrite (IH (i + 1) fs1). reflexivity.
Qed.

(** C9 (amended): every failure deriving from [Exception] that is
    raised while one file is decoded, analysed, resampled or encoded is
    caught at the boundary of [convert_to_432hz] and reported by the
    error line for that file; on a console that takes every line the
    function then returns normally, the file system as the failed
    stage left it, and it never lets such an exception out.  A batch
    run over an existing directory then converts every selected file in
    turn, each on the file system its predecessor left, whatever failed
    before, and returns normally. *)
Theorem convert_to_432hz_contains_failures (which : script)
        (output_folder : option string) (target_format target_bitrate : string)
        (target_sample_rate : Z) :
  (forall (input_file : string) (fs : FileSystem),
      let convert := convert_to_432hz which input_file output_folder target_format
                                      target_bitrate target_sample_rate in
      let output_file := output_path input_file output_folder target_format in
      (exists fs' printed, convert fs = (fs', printed, Ok tt))
      /\ (endswith_any (lower input_file) SUPPORTED_FORMATS = true ->
          path_exists output_file fs = false ->
          (forall e, from_file input_file fs = Raise e ->
             convert fs = (fs, [MsgConverting input_file; MsgError input_file e], Ok tt))
          /\ (forall song, from_file input_file fs = Ok song ->
                (forall e, analyze_tone song = Raise e ->
                   convert fs
                   = (fs, [MsgConverting input_file; MsgError input_file e], Ok tt))
                /\ (forall tone, analyze_tone song = Ok tone ->
                      (forall e, speed_ratio tone = Raise e ->
                         convert fs
                         = (fs, [MsgConverting input_file; MsgDetected tone;
                                 MsgError input_file e], Ok tt))
                      /\ (forall ratio, speed_ratio tone = Ok ratio ->
                            (forall e, speed_change song ratio target_sample_rate = Raise e ->
                               convert fs
                               = (fs, [MsgConverting input_file; MsgDetected tone]
                                      ++ only_commandconverter432 which [MsgRatio ratio]
                                      ++ [MsgError input_file e], Ok tt))
                            /\ (forall new_song fs2 e,
                                  speed_change song ratio target_sample_rate = Ok new_song ->
                                  export new_song output_file target_format target_bitrate fs
                                  = (fs2, Raise e) ->
                                  convert fs
                                  = (fs2, [MsgConverting input_file; MsgDetected tone]
                                          ++ only_commandconverter432 which
                                               [MsgRatio ratio; MsgSaving output_file]
                                          ++ [MsgError input_file e], Ok tt)))))))
  /\ (forall (directory : string) (fs : FileSystem),
         isdir directory fs = true ->
         let names := files_to_convert (dir_entries directory fs) in
         let total := Z.of_nat (length names) in
         let turns := convert_in_turn which directory output_folder target_format
                                      target_bitrate target_sample_rate 1 total names fs in
         batch_convert_directory which directory output_folder target_format
                                 target_bitrate target_sample_rate fs
         = (fst turns,
            MsgBatchFound total directory
              :: snd turns ++ only_commandconverter432 which [MsgBatchComplete],
            Ok tt)).
Proof.
  split.
  - intros input_file fs convert output_file. subst convert output_file.
    split; [apply convert_to_432hz_returns|].
    intros Hext Hnew.
    assert (Hbody : forall fs1 out1 r,
               convert_body which input_file output_folder target_format target_bitrate
                            target_sample_rate fs = (fs1, out1, r) ->
               convert_to_432hz which input_file output_folder target_format target_bitrate
                                target_sample_rate fs
               = (fs1, out1 ++ match r with
                               | Ok _ => []
                               | Raise e => [MsgError input_file e]
                               end, Ok tt))
      by (intros fs1 out1 r; apply convert_to_432hz_catches).
    assert (Hstart : forall (k : AudioSegment -> prog unit),
               (let* _ := print (MsgConverting input_file) in
                let* song := decode input_file in k song) fs
               = match from_file input_file fs with
                 | Ok song => match k song fs with
                              | (fs2, out2, r) => (fs2, MsgConverting input_file :: out2, r)
                              end
                 | Raise e => (fs, [MsgConverting input_file], Raise e)
                 end).
    { intros k. unfold seq_prog at 1. rewrite print_prints.
      unfold seq_prog at 1, decode.
      destruct (from_file input_file fs) as [song|e]; [|reflexivity].
      destruct (k song fs) as [[fs2 out2] r]. reflexivity. }
    unfold convert_body in Hbody. rewrite Hext in Hbody. cbn [negb] in Hbody.
    unfold seq_prog at 1, get_fs in Hbody. cbv beta iota zeta in Hbody.
    rewrite Hnew in Hbody. rewrite Hstart in Hbody.
    split.
    { intros e He. rewrite He in Hbody. exact (Hbody _ _ _ eq_refl). }
    intros song Hsong. rewrite Hsong in Hbody.
    unfold seq_prog at 1, lift in Hbody. split.
    { intros e He. rewrite He in Hbody. exact (Hbody _ _ _ eq_refl). }
    intros tone Htone. rewrite Htone in Hbody.
    unfold seq_prog at 1 in Hbody. rewrite print_prints in Hbody.
    unfold seq_prog at 1 in Hbody. split.
    { intros e He. rewrite He in Hbody. exact (Hbody _ _ _ eq_refl). }
    intros ratio Hratio. rewrite Hratio in Hbody.
    unfold seq_prog at 1 in Hbody. rewrite when_prints in Hbody.
    unfold seq_prog at 1 in Hbody. split.
    { intros e He. rewrite He in Hbody.
      rewrite (Hbody _ _ _ eq_refl). destruct which; reflexivity. }
    intros new_song fs2 e Hnew_song Hexport. rewrite Hnew_song in Hbody.
    unfold seq_prog at 1 in Hbody. rewrite when_prints in Hbody.
    unfold seq_prog at 1, encode in Hbody. rewrite Hexport in Hbody.
    rewrite (Hbody _ _ _ eq_refl). destruct which; reflexivity.
  - intros directory fs Hdir names total turns. subst turns total names.
    unfold batch_convert_directory, os_listdir.
    unfold seq_prog at 1. rewrite Hdir.
    unfold seq_prog at 1. rewrite print_prints.
    unfold seq_prog at 1. rewrite batch_loop_in_turn, when_prints. reflexivity.
Qed.

End Containment.

Lemma bare_codec_from_file_Exception (p : string) (fs : FileSystem) :
  raises_Exception_only (from_file (Codec := bare_codec) p fs).
Proof. intros e. cbn. destruct (files fs !! p); intros [= <-]. reflexivity. Qed.

Lemma bare_codec_export_Exception
      (seg : AudioSegment) (output_file target_format target_bitrate : string)
      (fs : FileSystem) :
  raises_Exception_only
    (snd (export (Codec := bare_codec) seg output_file target_format target_bitrate fs)).
Proof. intros e. cbn. discriminate. Qed.

(** A file that is not there: the decoder fails, the run prints the
    error line and returns. *)
Lemma convert_to_432hz_contains_failures_witness :
  (forall m : message, write_fails (Console := reliable_console) m = None)
  /\ (forall (p : string) (fs : FileSystem),
         raises_Exception_only (from_file (Codec := bare_codec) p fs))
  /\ (forall (seg : AudioSegment) (output_file target_format target_bitrate : string)
             (fs : FileSystem),
         raises_Exception_only
           (snd (export (Codec := bare_codec) seg output_file target_format
                        target_bitrate fs)))
  /\ convert_to_432hz (lib := clip_lib) (spectrum := flat_Spectrum) (codec := bare_codec)
                      converter_py "missing.mp3" None "mp3" "320k" 48000 empty_fs
     = (empty_fs, [MsgConverting "missing.mp3";
                   MsgError "missing.mp3" (FileNotFoundError "missing.mp3")], Ok tt).
Proof.
  split; [reflexivity|].
  split; [exact bare_codec_from_file_Exception|].
  split; [exact bare_codec_export_Exception|].
  refine (proj1 (proj2 (proj1 (convert_to_432hz_contains_failures
                                 (lib := clip_lib) (spectrum := flat_Spectrum)
                                 (codec := bare_codec) (console := reliable_console)
                                 (fun _ => eq_refl)
                                 bare_codec_from_file_Exception bare_codec_export_Exception
                                 converter_py None "mp3" "320k" 48000)
                              "missing.mp3"%string empty_fs) _ _) _ _);
    vm_compute; reflexivity.
Defined.

(** C9 as stated fails on a console that cannot encode the error line:
    the decoder fails on the first file of the batch, the handler's own
    [print] raises [UnicodeEncodeError] outside any [try], the exception
    leaves [convert_to_432hz], and the batch run ends with it, the
    second file never taken up.  And an interrupt from the keyboard
    while a file is decoded derives from [BaseException] only: the
    [except Exception] clause lets it pass. *)
Lemma convert_to_432hz_print_failure :
  let convert :=
    convert_to_432hz (lib := clip_lib) (spectrum := flat_Spectrum)
                     (codec := undecodable_codec) (console := narrow_console)
                     converter_py "music/a.mp3" None "mp3" "320k" 48000 in
  let batch :=
    batch_convert_directory (lib := clip_lib) (spectrum := flat_Spectrum)
                            (codec := undecodable_codec) (console := narrow_console)
                            converter_py "music" None "mp3" "320k" 48000 in
  let interrupted :=
    convert_to_432hz (lib := clip_lib) (spectrum := flat_Spectrum)
                     (codec := interrupted_codec) (console := reliable_console)
                     converter_py "music/a.mp3" None "mp3" "320k" 48000 in
  files_to_convert (dir_entries "music" two_songs_fs) = ["a.mp3"; "b.mp3"]%string
  /\ convert two_songs_fs
     = (two_songs_fs, [MsgConverting "music/a.mp3"], Raise UnicodeEncodeError)
  /\ batch two_songs_fs
     = (two_songs_fs,
        [MsgBatchFound 2 "music"; MsgBatchItem 1 2 "a.mp3"; MsgConverting "music/a.mp3"],
        Raise UnicodeEncodeError)
  /\ interrupted two_songs_fs
     = (two_songs_fs, [MsgConverting "music/a.mp3"], Raise KeyboardInterrupt).
Proof. vm_compute. repeat split; reflexivity. Qed.

(** ** Skipping an existing output *)

Section Idempotence.
Context {lib : AudioLib} {M : Type} `{Magnitude M} {spectrum : Spectrum M}.
Context {codec : Codec}.

(** An export that returns normally has written its output file. *)
Hypothesis export_writes :
  forall (seg : AudioSegment) (output_file target_format target_bitrate : string)
         (fs fs' : FileSystem),
    export seg output_file target_format target_bitrate fs = (fs', Ok tt) ->
    path_exists output_file fs' = true.

Lemma convert_to_432hz_skips (which : script) (input_file : string)
      (output_folder : option string) (target_format target_bitrate : string)
      (target_sample_rate : Z) (fs : FileSystem) :
  endswith_any (lower input_file) SUPPORTED_FORMATS = true ->
  path_exists (output_path input_file output_folder target_format) fs = true ->
  convert_to_432hz which input_file output_folder target_format target_bitrate
                   target_sample_rate fs
  = (fs, [MsgSkipExisting (output_path input_file output_folder target_format)], Ok tt).
Proof.
  intros Hext Hexists.
  unfold convert_to_432hz, try_except_Exception, convert_body.
  rewrite Hext. cbn [negb]. unfold seq_prog, get_fs, print. rewrite Hexists. reflexivity.
Qed.

(** A run that printed the completion line went through the export. *)
Lemma convert_to_432hz_complete (which : script) (input_file : string)
      (output_folder : option string) (target_format target_bitrate : string)
      (target_sample_rate : Z) (fs fs1 : FileSystem) (printed : list message)
      (r : outcome unit) :
  convert_to_432hz which input_file output_folder target_format target_bitrate
                   target_sample_rate fs = (fs1, printed, r) ->
  In (MsgComplete (output_path input_file output_folder target_format)) printed ->
  endswith_any (lower input_file) SUPPORTED_FORMATS = true
  /\ path_exists (output_path input_file output_folder target_format) fs1 = true.
Proof.
  unfold convert_to_432hz, try_except_Exception, convert_body.
  unfold seq_prog, get_fs, print, decode, lift, encode, when, ret.
  cbn [write_fails reliable_console].
  destruct (endswith_any (lower input_file) SUPPORTED_FORMATS); cbn [negb];
    [|not_completed].
  destruct (path_exists _ fs); cbv beta iota zeta; [not_completed|].
  destruct (from_file input_file fs) as [song|e]; cbv beta iota zeta;
    [|destruct (is_Exception e); not_completed].
  destruct (analyze_tone song) as [tone|e]; cbv beta iota zeta;
    [|destruct (is_Exception e); not_completed].
  destruct (speed_ratio tone) as [ratio|e]; cbv beta iota zeta;
    [|destruct (is_Exception e); not_completed].
  destruct which; cbn [is_commandconverter432]; cbv beta iota zeta.
  all: destruct (speed_change song ratio target_sample_rate) as [new_song|e];
    cbv beta iota zeta; [|destruct (is_Exception e); not_completed].
  all: destruct (export new_song _ target_format target_bitrate fs) as [fs2 [[]|e]] eqn:Hexp;
    cbv beta iota zeta; [|destruct (is_Exception e); not_completed].
  all: intros [= <- <- <-] _; split; [reflexivity|];
    eapply export_writes; exact Hexp.
Qed.

(** C7: when the output path exists, [convert_to_432hz] changes nothing
    and prints one line, the skip (or the rejection of an unsupported
    input); and after a run that completed a conversion, a second run on
    the same arguments is such a skip: it leaves the file system, and so
    the first output, as the first run left it. *)
Theorem convert_to_432hz_idempotent (which : script) (input_file : string)
        (output_folder : option string) (target_format target_bitrate : string)
        (target_sample_rate : Z) (fs : FileSystem) :
  let output_file := output_path input_file output_folder target_format in
  (path_exists output_file fs = true ->
   exists m : message,
     convert_to_432hz which input_file output_folder target_format target_bitrate
                      target_sample_rate fs = (fs, [m], Ok tt)
     /\ (m = MsgSkipExisting output_file \/ m = MsgUnsupported input_file))
  /\ (forall (fs1 : FileSystem) (printed : list message) (r : outcome unit),
         convert_to_432hz which input_file output_folder target_format target_bitrate
                          target_sample_rate fs = (fs1, printed, r) ->
         In (MsgComplete output_file) printed ->
         convert_to_432hz which input_file output_folder target_format target_bitrate
                          target_sample_rate fs1
         = (fs1, [MsgSkipExisting output_file], Ok tt)).
Proof.
  intros output_file. split.
  - intros Hexists.
    destruct (endswith_any (lower input_file) SUPPORTED_FORMATS) eqn:Hext.
    + exists (MsgSkipExisting output_file). split; [|left; reflexivity].
      now apply convert_to_432hz_skips.
    + exists (MsgUnsupported input_file). split; [|right; reflexivity].
      unfold convert_to_432hz, try_except_Exception, convert_body, print.
      rewrite Hext. reflexivity.
  - intros fs1 printed r Hrun Hin.
    destruct (convert_to_432hz_complete _ _ _ _ _ _ _ _ _ _ Hrun Hin) as [Hext Hexists].
    now apply convert_to_432hz_skips.
Qed.

End Idempotence.

Lemma bare_codec_export_writes
      (seg : AudioSegment) (output_file target_format target_bitrate : string)
      (fs fs' : FileSystem) :
  export (Codec := bare_codec) seg output_file target_format target_bitrate fs = (fs', Ok tt) ->
  path_exists output_file fs' = true.
Proof.
  cbn. intros [= <-]. unfold path_exists, isfile, write_file. cbn.
  rewrite lookup_insert_eq. reflexivity.
Qed.

Lemma convert_to_432hz_idempotent_witness :
  let convert :=
    convert_to_432hz (lib := clip_lib) (spectrum := flat_Spectrum) (codec := bare_codec)
                     converter_py "a.mp3" None "mp3" "320k" 48000 in
  (forall seg output_file target_format target_bitrate fs fs',
      export (Codec := bare_codec) seg output_file target_format target_bitrate fs
      = (fs', Ok tt) ->
      path_exists output_file fs' = true)
  /\ (path_exists "432hz_a.mp3" (write_file "432hz_a.mp3" [] empty_fs) = true ->
      exists m : message,
        convert (write_file "432hz_a.mp3" [] empty_fs)
        = (write_file "432hz_a.mp3" [] empty_fs, [m], Ok tt)
        /\ (m = MsgSkipExisting "432hz_a.mp3" \/ m = MsgUnsupported "a.mp3")).
Proof.
  split; [exact bare_codec_export_writes|].
  exact (proj1 (convert_to_432hz_idempotent (lib := clip_lib) (spectrum := flat_Spectrum)
                  (codec := bare_codec) bare_codec_export_writes
                  converter_py "a.mp3" None "mp3" "320k" 48000
                  (write_file "432hz_a.mp3" [] empty_fs))).
Defined.

(** Two runs on the same input: the first converts and writes
    [432hz_a.mp3], the second prints the skip and changes nothing. *)
Lemma convert_to_432hz_twice :
  let convert :=
    convert_to_432hz (lib := clip_lib) (spectrum := flat_Spectrum) (codec := bare_codec)
                     converter_py "a.mp3" None "mp3" "320k" 48000 in
  let fs0 := write_file "a.mp3" (repeat Byte.x01 8) empty_fs in
  let fs1 := write_file "432hz_a.mp3" (repeat Byte.x01 8) fs0 in
  convert fs0 = (fs1, [MsgConverting "a.mp3"; MsgDetected (NpFloat 424);
                       MsgComplete "432hz_a.mp3"], Ok tt)
  /\ convert fs1 = (fs1, [MsgSkipExisting "432hz_a.mp3"], Ok tt).
Proof. split; vm_compute; reflexivity. Qed.

(** ** The download directory *)

(** C10: a URL run of [commandconverter432.py] interrupted while the
    first download is decoded ends with the exception and leaves the
    directory [temp_youtube_audio] and the downloaded file in place; so
    does an undisturbed run without an output directory, whose converted
    file lands in the download directory and makes [os.rmdir] fail.  On
    the same inputs [converter.py], whose cleanup is a [finally] clause
    over the whole listing, removes [temp_audio_downloads]. *)
Theorem commandconverter432_keeps_temp_folder :
  (result (cc432_url_run interrupted_codec (Some "out"%string)) = Raise KeyboardInterrupt
   /\ isdir "temp_youtube_audio" (final_fs (cc432_url_run interrupted_codec (Some "out"%string)))
      = true
   /\ isfile "temp_youtube_audio/song.mp3"
             (final_fs (cc432_url_run interrupted_codec (Some "out"%string))) = true)
  /\ (result (cc432_url_run bare_codec None) = Raise (OSError "Directory not empty")
      /\ isdir "temp_youtube_audio" (final_fs (cc432_url_run bare_codec None)) = true
      /\ isfile "temp_youtube_audio/432hz_song.mp3" (final_fs (cc432_url_run bare_codec None))
         = true)
  /\ (result (converter_url_run interrupted_codec (Some "out"%string)) = Raise KeyboardInterrupt
      /\ isdir "temp_audio_downloads"
               (final_fs (converter_url_run interrupted_codec (Some "out"%string))) = false)
  /\ (result (converter_url_run bare_codec None) = Ok tt
      /\ isdir "temp_audio_downloads" (final_fs (converter_url_run bare_codec None)) = false).
Proof.
  assert (Hcc : cc432_url_run bare_codec None
                = ({| files := {["temp_youtube_audio/432hz_song.mp3"%string := repeat Byte.x01 8]};
                      dirs := {["temp_youtube_audio"%string]} |},
                   [MsgConverting "temp_youtube_audio/song.mp3";
                    MsgDetected (NpFloat 424); MsgRatio 1.0188679245283019;
                    MsgSaving "temp_youtube_audio/432hz_song.mp3";
                    MsgComplete "temp_youtube_audio/432hz_song.mp3"],
                   Raise (OSError "Directory not empty")))
    by (vm_compute; reflexivity).
  assert (Hcv : converter_url_run bare_codec None
                = (empty_fs,
                   [MsgConverting "temp_audio_downloads/song.mp3";
                    MsgDetected (NpFloat 424);
                    MsgComplete "temp_audio_downloads/432hz_song.mp3"],
                   Ok tt))
    by (vm_compute; reflexivity).
  rewrite Hcc, Hcv. vm_compute. repeat split; reflexivity.
Qed.

(** ** Further properties *)

Lemma run_eta {A : Type} (x : FileSystem * list message * outcome A) :
  x = (final_fs x, printed_of x, result x).
Proof. destruct x as [[fs out] r]. reflexivity. Qed.

(** ** The result of the detection *)

Section DetectionResult.
Context {M : Type} `{Magnitude M}.

(** The selection returns its initial value or one of the candidates. *)
Lemma scan_loop_result (score : float -> outcome M) (cands : list float) :
  forall (st st' : M * pynum),
    scan_loop score cands st = Ok st' ->
    snd st' = snd st \/ exists c, snd st' = NpFloat c /\ In c cands.
Proof.
  induction cands as [|c cands IH]; intros st st'; cbn [scan_loop].
  - intros [= <-]. left; reflexivity.
  - destruct (score c) as [s|e]; cbn [bind]; [|discriminate].
    intros Hrun. apply IH in Hrun as [Heq | (c' & Heq & Hin)].
    + unfold scan_update in Heq. destruct (m_gt s (fst st)); cbn [snd] in Heq.
      * right. exists c. split; [exact Heq | left; reflexivity].
      * left. exact Heq.
    + right. exists c'. split; [exact Heq | right; exact Hin].
Qed.

Lemma analyze_tone_scan_result (sample_rate samples_len : Z) (fft : ndarray M) (r : pynum) :
  analyze_tone_scan sample_rate samples_len fft = Ok r ->
  r = PyInt 0 \/ exists c, r = NpFloat c /\ In c candidates.
Proof.
  unfold analyze_tone_scan. rewrite np_arange_candidates.
  intros Hrun. apply bind_Ok_inv in Hrun as (st & Hloop & [= <-]).
  apply scan_loop_result in Hloop. exact Hloop.
Qed.

(** X1: the detection returns the Python [int] 0 or one of the 242
    candidates of the grid, a float between 424.0 and
    448.10000000000548. *)
Theorem analyze_tone_scan_in_grid (sample_rate samples_len : Z) (fft : ndarray M)
        (r : pynum) :
  analyze_tone_scan sample_rate samples_len fft = Ok r ->
  r = PyInt 0
  \/ exists c, r = NpFloat c /\ In c (dict_keys tones) /\ in_grid_range c = true.
Proof.
  intros Hrun. apply analyze_tone_scan_result in Hrun as [-> | (c & -> & Hin)];
    [left; reflexivity | right].
  exists c. split; [reflexivity|]. rewrite dict_keys_tones. split; [exact Hin|].
  assert (Hall : forallb in_grid_range candidates = true) by (vm_compute; reflexivity).
  rewrite forallb_forall in Hall. exact (Hall c Hin).
Qed.

(** X2: the speed ratio computed from a detection result: the division
    raises [ZeroDivisionError] on the result 0, and on a candidate it
    yields a ratio between 0.964 and 1.019. *)
Theorem speed_ratio_of_detection (sample_rate samples_len : Z) (fft : ndarray M)
        (r : pynum) :
  analyze_tone_scan sample_rate samples_len fft = Ok r ->
  (r = PyInt 0 /\ speed_ratio r = Raise ZeroDivisionError)
  \/ exists c ratio,
       r = NpFloat c /\ speed_ratio r = Ok ratio
       /\ ratio = (TARGET_FREQUENCY / c)%float /\ in_ratio_range ratio = true.
Proof.
  intros Hrun. apply analyze_tone_scan_result in Hrun as [-> | (c & -> & Hin)].
  - left. split; reflexivity.
  - right. exists c, (TARGET_FREQUENCY / c)%float.
    split; [reflexivity|]. split; [reflexivity|]. split; [reflexivity|].
    assert (Hall : forallb (fun c => in_ratio_range (TARGET_FREQUENCY / c)%float) candidates
                   = true) by (vm_compute; reflexivity).
    rewrite forallb_forall in Hall. exact (Hall c Hin).
Qed.

Lemma np_index_raises (a : ndarray M) (i : Z) (e : exn) :
  np_index a i = Raise e -> e = IndexError /\ out_of_range a i.
Proof.
  unfold np_index, out_of_range.
  destruct ((0 <=? i) && (i <? shape0 a)) eqn:H1; [discriminate|].
  destruct ((- shape0 a <=? i) && (i <? 0)) eqn:H2; [discriminate|].
  intros [= <-]. split; [reflexivity|].
  apply andb_false_iff in H1, H2. rewrite Z.leb_gt, Z.ltb_ge in H1, H2. lia.
Qed.

Lemma np_take_raises (a : ndarray M) (indices : list Z) (e : exn) :
  np_take a indices = Raise e ->
  e = IndexError /\ exists i, In i indices /\ out_of_range a i.
Proof.
  induction indices as [|i rest IH]; cbn [np_take]; [discriminate|].
  destruct (np_index a i) as [x|e'] eqn:Hi; cbn [bind].
  - destruct (np_take a rest) as [xs|e'']; cbn [bind]; [discriminate|].
    intros [= <-]. destruct (IH eq_refl) as (He & j & Hj & Hout).
    split; [exact He|]. exists j. split; [right; exact Hj | exact Hout].
  - intros [= <-]. apply np_index_raises in Hi as [He Hout].
    split; [exact He|]. exists i. split; [left; reflexivity | exact Hout].
Qed.

Lemma scan_loop_raises_at (score : float -> outcome M) (cands : list float) (e : exn) :
  forall st, scan_loop score cands st = Raise e ->
             exists c, In c cands /\ score c = Raise e.
Proof.
  induction cands as [|c cands IH]; intros st; cbn [scan_loop]; [discriminate|].
  destruct (score c) as [s|e'] eqn:Hc; cbn [bind].
  - intros Hrun. apply IH in Hrun as (c' & Hin & Hbad).
    exists c'. split; [right; exact Hin | exact Hbad].
  - intros [= <-]. exists c. split; [left; reflexivity | exact Hc].
Qed.

(** X3: on a window that is not empty the detection fails in one way
    only: with [IndexError], at a candidate of the grid one of whose bin
    indices falls outside the spectrum.  The lookup of a candidate's
    ladder never fails. *)
Theorem analyze_tone_scan_raises (sample_rate samples_len : Z) (fft : ndarray M) (e : exn) :
  samples_len <> 0 ->
  analyze_tone_scan sample_rate samples_len fft = Raise e ->
  e = IndexError
  /\ exists c i,
       In c (dict_keys tones)
       /\ dict_get tones c = Ok (scale_ladder c)
       /\ In i (tone_indices (scale_ladder c)
                             (F64.of_Z sample_rate / F64.of_Z samples_len)%float)
       /\ out_of_range fft i.
Proof.
  intros Hlen. unfold analyze_tone_scan. rewrite np_arange_candidates.
  destruct (scan_loop _ candidates _) as [st|e'] eqn:Hloop; cbn [bind]; [discriminate|].
  intros [= <-]. apply scan_loop_raises_at in Hloop as (c & Hin & Hbad).
  unfold tone_score in Hbad. rewrite (tones_lookup _ Hin) in Hbad. cbn [bind] in Hbad.
  unfold py_truediv in Hbad.
  replace (samples_len =? 0) with false in Hbad by (symmetry; apply Z.eqb_neq; exact Hlen).
  cbn [bind] in Hbad.
  destruct (np_take fft _) as [xs|e''] eqn:Htake; cbn [bind] in Hbad; [discriminate|].
  injection Hbad as <-. apply np_take_raises in Htake as (He & i & Hi & Hout).
  split; [exact He|]. exists c, i. rewrite dict_keys_tones.
  repeat split; auto using tones_lookup.
Qed.

Lemma scan_loop_ties (score : float -> outcome M) (s : M) (cands : list float) (r : pynum) :
  (forall c, In c cands -> score c = Ok s) ->
  m_gt s s = false ->
  scan_loop score cands (s, r) = Ok (s, r).
Proof.
  intros Hscore Hirr. induction cands as [|c cands IH]; cbn [scan_loop]; [reflexivity|].
  rewrite (Hscore c) by (left; reflexivity). cbn [bind].
  unfold scan_update. cbn [fst]. rewrite Hirr.
  apply IH. intros c' Hc'. apply Hscore. right; exact Hc'.
Qed.

(** X4: when every candidate scores the same strictly positive sum, the
    detection returns the first candidate, 424.0: a later candidate
    replaces the current one on a strictly greater sum only. *)
Theorem analyze_tone_scan_all_tied (sample_rate samples_len : Z) (fft : ndarray M) (s : M) :
  (forall c, In c (dict_keys tones) -> tone_score sample_rate samples_len fft c = Ok s) ->
  m_gt s m_zero = true ->
  m_gt s s = false ->
  analyze_tone_scan sample_rate samples_len fft = Ok (NpFloat 424.0).
Proof.
  rewrite dict_keys_tones. intros Hscore Hpos Hirr.
  unfold analyze_tone_scan. rewrite np_arange_candidates.
  change candidates with (424.0%float :: tl candidates) in *.
  cbn [scan_loop]. rewrite (Hscore 424.0%float) by (left; reflexivity). cbn [bind].
  unfold scan_update. cbn [fst]. rewrite Hpos.
  rewrite (scan_loop_ties _ s (tl candidates) (NpFloat 424.0)); [reflexivity | | exact Hirr].
  intros c Hc. apply Hscore. right; exact Hc.
Qed.

End DetectionResult.

(** A flat spectrum of a 100 s window at 44.1 kHz: every candidate
    scores 108, and the detection returns 424.0. *)
Lemma flat_scores_44100 :
  forallb (fun c => match tone_score 44100 4410000 (constant_spectrum 4410000 1) c with
                    | Ok s => s =? 108
                    | Raise _ => false
                    end) candidates = true.
Proof. vm_compute. reflexivity. Qed.

Lemma flat_scan_44100 :
  analyze_tone_scan 44100 4410000 (constant_spectrum 4410000 1) = Ok (NpFloat 424.0).
Proof. vm_compute. reflexivity. Qed.

Lemma analyze_tone_scan_in_grid_witness :
  analyze_tone_scan 44100 4410000 (constant_spectrum 4410000 1) = Ok (NpFloat 424.0)
  /\ (NpFloat 424.0 = PyInt 0
      \/ exists c, NpFloat 424.0 = NpFloat c /\ In c (dict_keys tones)
                   /\ in_grid_range c = true).
Proof.
  split; [exact flat_scan_44100|].
  exact (analyze_tone_scan_in_grid 44100 4410000 (constant_spectrum 4410000 1)
           (NpFloat 424.0) flat_scan_44100).
Defined.

Lemma speed_ratio_of_detection_witness :
  analyze_tone_scan 44100 4410000 (constant_spectrum 4410000 1) = Ok (NpFloat 424.0)
  /\ ((NpFloat 424.0 = PyInt 0 /\ speed_ratio (NpFloat 424.0) = Raise ZeroDivisionError)
      \/ exists c ratio,
           NpFloat 424.0 = NpFloat c /\ speed_ratio (NpFloat 424.0) = Ok ratio
           /\ ratio = (TARGET_FREQUENCY / c)%float /\ in_ratio_range ratio = true).
Proof.
  split; [exact flat_scan_44100|].
  exact (speed_ratio_of_detection 44100 4410000 (constant_spectrum 4410000 1)
           (NpFloat 424.0) flat_scan_44100).
Defined.

(** At 8 kHz the 100 s window has 800000 bins and the detection fails. *)
Lemma short_scan_8000 :
  analyze_tone_scan 8000 800000 (constant_spectrum 800000 1) = Raise IndexError.
Proof. vm_compute. reflexivity. Qed.

Lemma analyze_tone_scan_raises_witness :
  800000 <> 0
  /\ analyze_tone_scan 8000 800000 (constant_spectrum 800000 1) = Raise IndexError
  /\ IndexError = IndexError
  /\ exists c i,
       In c (dict_keys tones)
       /\ dict_get tones c = Ok (scale_ladder c)
       /\ In i (tone_indices (scale_ladder c) (F64.of_Z 8000 / F64.of_Z 800000)%float)
       /\ out_of_range (constant_spectrum 800000 1) i.
Proof.
  split; [lia|]. split; [exact short_scan_8000|].
  apply (analyze_tone_scan_raises 8000 800000 (constant_spectrum 800000 1) IndexError);
    [lia | exact short_scan_8000].
Defined.

Lemma analyze_tone_scan_all_tied_witness :
  (forall c, In c (dict_keys tones) ->
             tone_score 44100 4410000 (constant_spectrum 4410000 1) c = Ok 108)
  /\ analyze_tone_scan 44100 4410000 (constant_spectrum 4410000 1) = Ok (NpFloat 424.0).
Proof.
  assert (Hscore : forall c, In c (dict_keys tones) ->
                     tone_score 44100 4410000 (constant_spectrum 4410000 1) c = Ok 108).
  { rewrite dict_keys_tones. intros c Hc.
    pose proof flat_scores_44100 as Hall. rewrite forallb_forall in Hall.
    specialize (Hall c Hc).
    destruct (tone_score 44100 4410000 (constant_spectrum 4410000 1) c) as [s|];
      [|discriminate].
    apply Z.eqb_eq in Hall. congruence. }
  split; [exact Hscore|].
  apply (analyze_tone_scan_all_tied 44100 4410000 (constant_spectrum 4410000 1) 108 Hscore);
    reflexivity.
Defined.

(** ** An empty buffer *)

Lemma Prim2SF_of_Z_small (p : positive) :
  Z.pos p < 2 ^ 53 ->
  exists (m : positive) (e : Z), Prim2SF (F64.of_Z (Z.pos p)) = S754_finite false m e.
Proof.
  intros Hp.
  destruct (binary_normalize_small p Hp) as (m & k & Hnorm & Hd & Hk & Hm).
  exists m, (- k). unfold F64.of_Z. rewrite Hnorm.
  apply Prim2SF_SF2Prim.
  unfold SpecFloat.valid_binary, SpecFloat.bounded, SpecFloat.canonical_mantissa.
  rewrite Hd.
  apply andb_true_intro. split.
  - apply Z.eqb_eq. unfold fexp, SpecFloat.emin, prec, emax. lia.
  - apply Z.leb_le. unfold prec, emax. lia.
Qed.

(** No frames at a positive rate last 0.0 seconds. *)
Lemma zero_frames_duration (rate : Z) :
  0 < rate < 2 ^ 53 -> (F64.of_Z 0 / F64.of_Z rate)%float = 0%float.
Proof.
  intros Hr. destruct rate as [|p|p]; try lia.
  destruct (Prim2SF_of_Z_small p) as (m & e & Hx); [lia|].
  apply Prim2SF_inj. rewrite div_spec, Hx. reflexivity.
Qed.

Section EmptyBuffer.
Context {lib : AudioLib}.

(** X5: a buffer without data is padded with 120000 ms of silence,
    whatever its frame rate, zero included. *)
Theorem analyze_tone_pad_empty (song : AudioSegment) :
  raw_data song = [] ->
  0 < frame_width song ->
  0 <= frame_rate song < 2 ^ 53 ->
  duration_seconds song = 0%float
  /\ analyze_tone_pad song = Ok (seg_add song (silent 120000)).
Proof.
  intros Hdata Hwidth Hrate.
  assert (Hd : duration_seconds song = 0%float).
  { unfold duration_seconds, frame_count. rewrite Hdata. cbn [length Z.of_nat].
    rewrite Z.div_0_l by lia.
    destruct (frame_rate song =? 0) eqn:Hz; [reflexivity|].
    apply Z.eqb_neq in Hz. apply zero_frames_duration. lia. }
  split; [exact Hd|].
  unfold analyze_tone_pad. rewrite Hd.
  replace (0 <? 101)%float with true by (vm_compute; reflexivity).
  replace (py_int ((120.0 - 0) * 1000)%float) with (Ok 120000) by (vm_compute; reflexivity).
  reflexivity.
Qed.

End EmptyBuffer.

Lemma analyze_tone_pad_empty_witness :
  let song := silence_buffer 44100 0 in
  raw_data song = [] /\ 0 < frame_width song /\ 0 <= frame_rate song < 2 ^ 53
  /\ analyze_tone_pad (lib := bare_lib) song
     = Ok (seg_add (AudioLib := bare_lib) song (silent (AudioLib := bare_lib) 120000)).
Proof.
  cbv zeta. split; [reflexivity|]. split; [reflexivity|].
  split; [cbn; lia|].
  apply (analyze_tone_pad_empty (lib := bare_lib) (silence_buffer 44100 0));
    [reflexivity | reflexivity | cbn; lia].
Defined.

(** ** What a conversion leaves behind *)

Lemma same_except_refl (p : string) (fs : FileSystem) : same_except p fs fs.
Proof. split; reflexivity. Qed.

Lemma same_except_trans (p : string) (fs1 fs2 fs3 : FileSystem) :
  same_except p fs1 fs2 -> same_except p fs2 fs3 -> same_except p fs1 fs3.
Proof.
  intros [Hd1 Hf1] [Hd2 Hf2]. split; [congruence|].
  intros q Hq. rewrite (Hf2 q Hq). exact (Hf1 q Hq).
Qed.

Lemma writes_only_ret {A : Type} (p : string) (a : A) : writes_only p (ret a).
Proof. intros fs fs' out r [= <- <- <-]. apply same_except_refl. Qed.

Lemma writes_only_get_fs (p : string) : writes_only p get_fs.
Proof. intros fs fs' out r [= <- <- <-]. apply same_except_refl. Qed.

Lemma writes_only_lift {A : Type} (p : string) (x : outcome A) : writes_only p (lift x).
Proof. intros fs fs' out r [= <- <- <-]. apply same_except_refl. Qed.

Lemma writes_only_print {console : Console} (p : string) (m : message) :
  writes_only p (print m).
Proof.
  intros fs fs' out r. unfold print.
  destruct (write_fails m); intros [= <- <- <-]; apply same_except_refl.
Qed.

Lemma writes_only_seq {A B : Type} (p : string) (run : prog A) (k : A -> prog B) :
  writes_only p run -> (forall a, writes_only p (k a)) -> writes_only p (seq_prog run k).
Proof.
  intros Hrun Hk fs fs' out r. unfold seq_prog.
  destruct (run fs) as [[fs1 out1] [a|e]] eqn:H1.
  - destruct (k a fs1) as [[fs2 out2] r2] eqn:H2. intros [= <- <- <-].
    exact (same_except_trans _ _ _ _ (Hrun _ _ _ _ H1) (Hk _ _ _ _ _ H2)).
  - intros [= <- <- <-]. exact (Hrun _ _ _ _ H1).
Qed.

Lemma writes_only_when (p : string) (b : bool) (run : prog unit) :
  writes_only p run -> writes_only p (when b run).
Proof. destruct b; cbn; [auto | intros _; apply writes_only_ret]. Qed.

Lemma writes_only_try_except (p : string) (body : prog unit) (handler : exn -> prog unit) :
  writes_only p body -> (forall e, writes_only p (handler e)) ->
  writes_only p (try_except_Exception body handler).
Proof.
  intros Hbody Hhandler fs fs' out r. unfold try_except_Exception.
  destruct (body fs) as [[fs1 out1] [[]|e]] eqn:H1.
  - intros [= <- <- <-]. exact (Hbody _ _ _ _ H1).
  - destruct (is_Exception e).
    + destruct (handler e fs1) as [[fs2 out2] r2] eqn:H2. intros [= <- <- <-].
      exact (same_except_trans _ _ _ _ (Hbody _ _ _ _ H1) (Hhandler _ _ _ _ _ H2)).
    + intros [= <- <- <-]. exact (Hbody _ _ _ _ H1).
Qed.

Section ConversionFrame.
Context {lib : AudioLib} {M : Type} `{Magnitude M} {spectrum : Spectrum M}.
Context {codec : Codec} {console : Console}.

(** The encoder writes to its output path only. *)
Hypothesis export_frame :
  forall (seg : AudioSegment) (output_file target_format target_bitrate : string)
         (fs : FileSystem),
    same_except output_file fs
                (fst (export seg output_file target_format target_bitrate fs)).

(** X6: a conversion, however it ends and whatever the console does,
    leaves every path other than its output path as it found it, and
    creates or removes no directory: the input file is never altered
    or removed. *)
Theorem convert_to_432hz_frame (which : script) (input_file : string)
        (output_folder : option string) (target_format target_bitrate : string)
        (target_sample_rate : Z) (fs fs' : FileSystem) (out : list message)
        (r : outcome unit) :
  convert_to_432hz which input_file output_folder target_format target_bitrate
                   target_sample_rate fs = (fs', out, r) ->
  dirs fs' = dirs fs
  /\ forall p, p <> output_path input_file output_folder target_format ->
       files fs' !! p = files fs !! p.
Proof.
  revert fs fs' out r.
  change (writes_only (output_path input_file output_folder target_format)
            (convert_to_432hz which input_file output_folder target_format target_bitrate
                              target_sample_rate)).
  unfold convert_to_432hz.
  apply writes_only_try_except; [|intros e; apply writes_only_print].
  unfold convert_body.
  destruct (negb (endswith_any (lower input_file) SUPPORTED_FORMATS));
    [apply writes_only_print|].
  apply writes_only_seq; [apply writes_only_get_fs|]. intros fs.
  destruct (path_exists _ fs); [apply writes_only_print|].
  apply writes_only_seq; [apply writes_only_print|]. intros _.
  apply writes_only_seq; [intros fs1 fs2 out r [= <- <- <-]; apply same_except_refl|].
  intros song.
  apply writes_only_seq; [apply writes_only_lift|]. intros tone.
  apply writes_only_seq; [apply writes_only_print|]. intros _.
  apply writes_only_seq; [apply writes_only_lift|]. intros ratio.
  apply writes_only_seq; [apply writes_only_when, writes_only_print|]. intros _.
  apply writes_only_seq; [apply writes_only_lift|]. intros new_song.
  apply writes_only_seq; [apply writes_only_when, writes_only_print|]. intros _.
  apply writes_only_seq; [|intros _; apply writes_only_print].
  intros fs1 fs2 out r. unfold encode.
  pose proof (export_frame new_song (output_path input_file output_folder target_format)
                target_format target_bitrate fs1) as Hframe.
  destruct (export new_song _ target_format target_bitrate fs1) as [fs3 r3].
  intros [= <- <- <-]. exact Hframe.
Qed.

End ConversionFrame.

Lemma bare_codec_export_frame
      (seg : AudioSegment) (output_file target_format target_bitrate : string)
      (fs : FileSystem) :
  same_except output_file fs
              (fst (export (Codec := bare_codec) seg output_file target_format
                           target_bitrate fs)).
Proof.
  cbn. split; [reflexivity|]. intros q Hq. apply lookup_insert_ne. congruence.
Qed.

(** A conversion of [a.mp3] leaves [a.mp3] as it was. *)
Lemma convert_to_432hz_frame_witness :
  (forall seg output_file target_format target_bitrate fs,
      same_except output_file fs
                  (fst (export (Codec := bare_codec) seg output_file target_format
                               target_bitrate fs)))
  /\ dirs (final_fs one_file_run) = dirs one_file_fs
  /\ files (final_fs one_file_run) !! "a.mp3"%string = files one_file_fs !! "a.mp3"%string.
Proof.
  split; [exact bare_codec_export_frame|].
  destruct (convert_to_432hz_frame (lib := clip_lib) (spectrum := flat_Spectrum)
              (codec := bare_codec) bare_codec_export_frame
              converter_py "a.mp3" None "mp3" "320k" 48000 one_file_fs
              (final_fs one_file_run) (printed_of one_file_run) (result one_file_run)
              (run_eta one_file_run))
    as [Hdirs Hfiles].
  split; [exact Hdirs|]. apply Hfiles. discriminate.
Defined.

(** ** Paths *)

Lemma append_assoc (a b c : string) : ((a ++ b) ++ c)%string = (a ++ (b ++ c))%string.
Proof.
  induction a as [|x a IH]; [reflexivity|].
  rewrite !append_String_l, IH. reflexivity.
Qed.

Lemma append_sep_nonempty (a : string) : String.eqb (a ++ "/") "" = false.
Proof. destruct a; reflexivity. Qed.

Lemma no_sep_app (a b : string) : no_sep (a ++ b) = no_sep a && no_sep b.
Proof.
  induction a as [|x a IH]; [reflexivity|].
  rewrite append_String_l. cbn [no_sep]. rewrite IH. apply andb_assoc.
Qed.

Lemma split_at_last_sep_no_sep (b : string) :
  no_sep b = true -> split_at_last_sep b = (EmptyString, b).
Proof.
  induction b as [|c b IH]; [reflexivity|].
  cbn [no_sep split_at_last_sep]. intros Hb.
  apply andb_prop in Hb as [Hc Hb]. rewrite (IH Hb).
  apply negb_true_iff in Hc. rewrite Hc. reflexivity.
Qed.

Lemma split_at_last_sep_app (a b : string) :
  no_sep b = true ->
  split_at_last_sep (a ++ b)
  = (fst (split_at_last_sep a), (snd (split_at_last_sep a) ++ b)%string).
Proof.
  intros Hb. induction a as [|c a IH].
  - rewrite append_empty_l. rewrite (split_at_last_sep_no_sep b Hb). reflexivity.
  - rewrite append_String_l. cbn [split_at_last_sep]. rewrite IH.
    destruct (split_at_last_sep a) as [h t]. cbn [fst snd].
    destruct (negb (String.eqb h "")); [reflexivity|].
    destruct (Ascii.eqb c "/"); reflexivity.
Qed.

Lemma split_at_last_sep_sep (a : string) :
  split_at_last_sep (a ++ "/") = ((a ++ "/")%string, EmptyString).
Proof.
  induction a as [|c a IH]; [reflexivity|].
  rewrite append_String_l. cbn [split_at_last_sep]. rewrite IH.
  rewrite append_sep_nonempty. reflexivity.
Qed.

(** The head and tail of a split make up the path; the tail holds no
    slash, and the head is empty or ends in one. *)
Lemma split_at_last_sep_spec (p : string) :
  let (h, t) := split_at_last_sep p in
  (h ++ t)%string = p /\ no_sep t = true
  /\ (h = EmptyString \/ exists h', h = (h' ++ "/")%string).
Proof.
  induction p as [|c p IH]; [cbn; auto|].
  cbn [split_at_last_sep]. destruct (split_at_last_sep p) as [h t].
  destruct IH as (Hcat & Ht & Hh).
  destruct (String.eqb_spec h "") as [-> | Hne]; cbn [negb].
  - rewrite append_empty_l in Hcat. subst t.
    destruct (Ascii.eqb_spec c "/") as [-> | Hc].
    + split; [reflexivity|]. split; [exact Ht|]. right. exists EmptyString. reflexivity.
    + split; [reflexivity|]. split; [|left; reflexivity].
      cbn [no_sep]. rewrite Ht.
      replace (Ascii.eqb c "/") with false
        by (symmetry; apply Ascii.eqb_neq; exact Hc).
      reflexivity.
  - split; [rewrite append_String_l, Hcat; reflexivity|]. split; [exact Ht|].
    right. destruct Hh as [-> | [h' ->]]; [congruence|].
    exists (String c h'). reflexivity.
Qed.

Lemma all_seps_app_sep (s : string) : all_seps (s ++ "/") = all_seps s.
Proof.
  induction s as [|c s IH]; [reflexivity|].
  rewrite append_String_l. cbn [all_seps]. rewrite IH. reflexivity.
Qed.

Lemma rstrip_seps_app_sep (s : string) : rstrip_seps (s ++ "/") = rstrip_seps s.
Proof.
  induction s as [|c s IH]; [reflexivity|].
  rewrite append_String_l. cbn [rstrip_seps]. rewrite IH. reflexivity.
Qed.

Lemma endswith_String (c : ascii) (s suffix : string) :
  endswith (String c s) suffix
  = if String.eqb (String c s) suffix then true else endswith s suffix.
Proof. reflexivity. Qed.

Lemma rstrip_seps_fixed (s : string) : endswith s "/" = false -> rstrip_seps s = s.
Proof.
  induction s as [|c s IH]; [reflexivity|].
  rewrite endswith_String. cbn [rstrip_seps].
  destruct (String.eqb_spec (String c s) "/") as [Heq | Hne]; [discriminate|].
  intros Hend. rewrite (IH Hend).
  destruct (Ascii.eqb_spec c "/") as [-> | Hc]; [|reflexivity].
  destruct s as [|c' s]; [congruence | reflexivity].
Qed.

Lemma rstrip_seps_no_trailing (s : string) : endswith (rstrip_seps s) "/" = false.
Proof.
  induction s as [|c s IH]; [reflexivity|].
  cbn [rstrip_seps].
  destruct (Ascii.eqb_spec c "/") as [-> | Hc]; cbn [andb].
  - destruct (String.eqb_spec (rstrip_seps s) "") as [Heq | Hne]; [reflexivity|].
    rewrite endswith_String.
    destruct (String.eqb_spec (String "/" (rstrip_seps s)) "/") as [Heq | _];
      [congruence | exact IH].
  - rewrite endswith_String.
    destruct (String.eqb_spec (String c (rstrip_seps s)) "/") as [Heq | _];
      [congruence | exact IH].
Qed.

Lemma rstrip_seps_nonempty (s : string) :
  all_seps s = false -> rstrip_seps s <> EmptyString.
Proof.
  induction s as [|c s IH]; [discriminate|].
  cbn [all_seps rstrip_seps].
  destruct (Ascii.eqb c "/"); cbn [andb]; [|discriminate].
  intros Hs. destruct (String.eqb_spec (rstrip_seps s) "") as [Heq | Hne];
    [exfalso; exact (IH Hs Heq) | discriminate].
Qed.

Lemma all_seps_ends (s : string) :
  all_seps s = true -> s <> EmptyString -> endswith s "/" = true.
Proof.
  induction s as [|c s IH]; [congruence|].
  cbn [all_seps]. intros Hs _. apply andb_prop in Hs as [Hc Hs].
  apply Ascii.eqb_eq in Hc. subst c. rewrite endswith_String.
  destruct s as [|c' s]; [reflexivity|].
  destruct (String.eqb (String "/" (String c' s)) "/"); [reflexivity|].
  apply IH; [exact Hs | discriminate].
Qed.

Lemma os_path_split_normal (p : string) : normal_folder (fst (os_path_split p)).
Proof.
  unfold os_path_split, normal_folder.
  destruct (split_at_last_sep p) as [h t]. cbn [fst].
  destruct (String.eqb_spec h "") as [-> | Hne]; cbn [negb andb]; [left; reflexivity|].
  destruct (all_seps h) eqn:Hall; cbn [negb]; [right; left; exact Hall|].
  right; right. apply rstrip_seps_no_trailing.
Qed.

(** [os.path.split] undoes [os.path.join] of a folder and a name
    without slash: the tail is the name, and the head is the folder
    when that is in normal form. *)
Lemma os_path_split_join (d name : string) :
  no_sep name = true ->
  snd (os_path_split (os_path_join d name)) = name
  /\ (normal_folder d -> fst (os_path_split (os_path_join d name)) = d).
Proof.
  intros Hname.
  assert (Hstart : startswith name "/" = false).
  { destruct name as [|c name]; [reflexivity|].
    cbn [no_sep] in Hname. apply andb_prop in Hname as [Hc _].
    apply negb_true_iff in Hc. cbn [startswith].
    rewrite Ascii.eqb_sym, Hc. reflexivity. }
  unfold os_path_join. rewrite Hstart.
  destruct (String.eqb_spec d "") as [-> | Hne]; cbn [orb].
  - rewrite append_empty_l. unfold os_path_split.
    rewrite (split_at_last_sep_no_sep name Hname). cbn. auto.
  - destruct (endswith d "/") eqn:Hend.
    + pose proof Hend as Hpre. apply endswith_spec in Hpre as [pre ->].
      unfold os_path_split. rewrite (split_at_last_sep_app _ _ Hname).
      rewrite split_at_last_sep_sep. cbn [fst snd]. rewrite append_empty_l.
      split; [reflexivity|].
      intros [Hd | [Hd | Hd]]; [congruence | | congruence].
      rewrite Hd, andb_false_r. reflexivity.
    + unfold os_path_split. rewrite <- append_assoc.
      rewrite (split_at_last_sep_app _ _ Hname).
      rewrite split_at_last_sep_sep. cbn [fst snd]. rewrite append_empty_l.
      split; [reflexivity|]. intros _.
      rewrite append_sep_nonempty, all_seps_app_sep. cbn [negb andb].
      destruct (all_seps d) eqn:Hall.
      * rewrite (all_seps_ends d Hall Hne) in Hend. discriminate.
      * cbn [negb]. rewrite rstrip_seps_app_sep. apply rstrip_seps_fixed. exact Hend.
Qed.

Lemma split_at_last_dot_concat (s stem ext : string) :
  split_at_last_dot s = Some (stem, ext) -> (stem ++ ext)%string = s.
Proof.
  revert stem ext. induction s as [|c s IH]; intros stem ext; [discriminate|].
  cbn [split_at_last_dot].
  destruct (split_at_last_dot s) as [[stem' ext']|].
  - intros [= <- <-]. rewrite append_String_l, (IH stem' ext' eq_refl). reflexivity.
  - destruct (Ascii.eqb c "."); [|discriminate].
    intros [= <- <-]. reflexivity.
Qed.

(** The stem and the extension of a name make up the name. *)
Lemma os_path_splitext_concat (name : string) :
  (fst (os_path_splitext name) ++ snd (os_path_splitext name))%string = name.
Proof.
  unfold os_path_splitext.
  destruct (split_at_last_dot name) as [[stem ext]|] eqn:Hsplit.
  - destruct (all_dots stem); cbn [fst snd].
    + clear. induction name as [|c name IH]; [reflexivity|].
      rewrite append_String_l, IH. reflexivity.
    + exact (split_at_last_dot_concat _ _ _ Hsplit).
  - cbn [fst snd]. clear. induction name as [|c name IH]; [reflexivity|].
    rewrite append_String_l, IH. reflexivity.
Qed.

Lemma output_name_no_sep (input_file target_format : string) :
  no_sep target_format = true -> no_sep (output_name input_file target_format) = true.
Proof.
  intros Hfmt. unfold output_name.
  assert (Hstem : no_sep (fst (os_path_splitext (snd (os_path_split input_file)))) = true).
  { pose proof (split_at_last_sep_spec input_file) as Hspec.
    unfold os_path_split. destruct (split_at_last_sep input_file) as [h t].
    cbn [snd]. destruct Hspec as (_ & Ht & _).
    rewrite <- (os_path_splitext_concat t), no_sep_app in Ht.
    apply andb_prop in Ht as [Hs _]. exact Hs. }
  rewrite !no_sep_app, Hstem, Hfmt. reflexivity.
Qed.

Lemma output_path_join (input_file : string) (output_folder : option string)
      (target_format : string) :
  output_path input_file output_folder target_format
  = os_path_join (or_folder output_folder (fst (os_path_split input_file)))
                 (output_name input_file target_format).
Proof.
  unfold output_path, output_name.
  destruct (os_path_split input_file) as [folder filename]. reflexivity.
Qed.

(** X7: where the output goes.  For a target format without slash, the
    output path splits into the output name
    [432hz_<stem of the input name>.<format>] and, without an output
    folder, the folder of the input; with an output folder given
    without trailing slash, that folder. *)
Theorem output_path_split (input_file : string) (output_folder : option string)
        (target_format : string) :
  no_sep target_format = true ->
  snd (os_path_split (output_path input_file output_folder target_format))
  = output_name input_file target_format
  /\ (or_folder output_folder (fst (os_path_split input_file))
      = fst (os_path_split input_file) ->
      fst (os_path_split (output_path input_file output_folder target_format))
      = fst (os_path_split input_file))
  /\ (forall o, output_folder = Some o -> o <> EmptyString -> endswith o "/" = false ->
        output_path input_file output_folder target_format
        = (o ++ "/" ++ output_name input_file target_format)%string
        /\ fst (os_path_split (output_path input_file output_folder target_format)) = o).
Proof.
  intros Hfmt. rewrite output_path_join.
  pose proof (output_name_no_sep input_file target_format Hfmt) as Hname.
  split; [exact (proj1 (os_path_split_join _ _ Hname))|]. split.
  - intros ->. apply (proj2 (os_path_split_join _ _ Hname)). apply os_path_split_normal.
  - intros o -> Hne Hend. cbn [or_folder].
    replace (String.eqb o "") with false by (symmetry; apply String.eqb_neq; exact Hne).
    split.
    + unfold os_path_join.
      replace (startswith (output_name input_file target_format) "/") with false
        by reflexivity.
      replace (String.eqb o "") with false by (symmetry; apply String.eqb_neq; exact Hne).
      rewrite Hend. reflexivity.
    + apply (proj2 (os_path_split_join _ _ Hname)). right; right. exact Hend.
Qed.

(** X8: an output is never taken up by a batch run: its name starts
    with [432hz_], which the filter of [batch_convert_directory]
    excludes, whatever the listing. *)
Theorem output_never_selected (input_file : string) (output_folder : option string)
        (target_format : string) (listing : list string) :
  no_sep target_format = true ->
  batch_selected (snd (os_path_split (output_path input_file output_folder target_format)))
  = false
  /\ ~ In (snd (os_path_split (output_path input_file output_folder target_format)))
          (files_to_convert listing).
Proof.
  intros Hfmt. rewrite output_path_join.
  rewrite (proj1 (os_path_split_join _ _ (output_name_no_sep _ _ Hfmt))).
  assert (Hsel : batch_selected (output_name input_file target_format) = false).
  { unfold batch_selected.
    replace (startswith (output_name input_file target_format) "432hz_") with true
      by reflexivity.
    apply andb_false_r. }
  split; [exact Hsel|].
  unfold files_to_convert. rewrite filter_In. intros [_ Hyes]. congruence.
Qed.

Lemma output_path_split_witness :
  no_sep "mp3" = true
  /\ os_path_split (output_path "music/a.b.WAV" None "mp3") = ("music", "432hz_a.b.mp3")%string
  /\ output_path "music/a.b.WAV" (Some "out"%string) "mp3" = "out/432hz_a.b.mp3"%string.
Proof.
  split; [reflexivity|].
  pose proof (output_path_split "music/a.b.WAV" None "mp3" eq_refl) as (Hn & Hf & _).
  pose proof (output_path_split "music/a.b.WAV" (Some "out"%string) "mp3" eq_refl)
    as (_ & _ & Ho).
  split.
  - rewrite (surjective_pairing (os_path_split _)), Hn, (Hf eq_refl). reflexivity.
  - apply (Ho "out"%string eq_refl); [discriminate | reflexivity].
Defined.

Lemma output_never_selected_witness :
  no_sep "flac" = true
  /\ ~ In (snd (os_path_split (output_path "music/a.mp3" None "flac")))
          (files_to_convert ["a.mp3"; "432hz_a.flac"]%string).
Proof.
  split; [reflexivity|].
  exact (proj2 (output_never_selected "music/a.mp3" None "flac"
                  ["a.mp3"; "432hz_a.flac"]%string eq_refl)).
Defined.

(** ** The list of URLs *)

Lemma split_commas_nonempty (s : string) : split_commas s <> [].
Proof.
  induction s as [|c s IH]; cbn [split_commas]; [discriminate|].
  destruct (Ascii.eqb c ","); [discriminate|].
  destruct (split_commas s); [congruence | discriminate].
Qed.

(** X9: splitting the input at its commas loses nothing: joining the
    pieces with commas gives the input back, no piece holds a comma,
    and a list of comma-free pieces, joined, splits into itself.  An
    input without comma is one URL. *)
Theorem split_commas_join (s : string) (parts : list string) :
  join_commas (split_commas s) = s
  /\ Forall (fun p => no_comma p = true) (split_commas s)
  /\ (no_comma s = true -> split_commas s = [s])
  /\ (parts <> [] -> Forall (fun p => no_comma p = true) parts ->
      split_commas (join_commas parts) = parts).
Proof.
  split; [|split; [|split]].
  - induction s as [|c s IH]; [reflexivity|].
    cbn [split_commas].
    pose proof (split_commas_nonempty s) as Hne.
    destruct (Ascii.eqb_spec c ",") as [-> | Hc].
    + destruct (split_commas s) as [|p ps]; [congruence|].
      change (join_commas (EmptyString :: p :: ps))
        with (("" ++ "," ++ join_commas (p :: ps))%string).
      rewrite IH. reflexivity.
    + destruct (split_commas s) as [|p ps]; [congruence|].
      destruct ps as [|q ps].
      * cbn [join_commas] in *. congruence.
      * change (join_commas (String c p :: q :: ps))
          with ((String c p ++ "," ++ join_commas (q :: ps))%string).
        change (join_commas (p :: q :: ps))
          with ((p ++ "," ++ join_commas (q :: ps))%string) in IH.
        rewrite append_String_l, IH. reflexivity.
  - induction s as [|c s IH]; [repeat constructor|].
    cbn [split_commas].
    destruct (Ascii.eqb c ",") eqn:Hc.
    + constructor; [reflexivity | exact IH].
    + destruct (split_commas s) as [|p ps]; [repeat constructor; cbn; rewrite Hc; reflexivity|].
      inversion IH as [|? ? Hp Hps]; subst.
      constructor; [|exact Hps]. cbn [no_comma]. rewrite Hc, Hp. reflexivity.
  - induction s as [|c s IH]; [reflexivity|].
    cbn [no_comma split_commas]. intros Hs. apply andb_prop in Hs as [Hc Hs].
    apply negb_true_iff in Hc. rewrite Hc, (IH Hs). reflexivity.
  - intros Hne Hall. clear s.
    assert (Hone : forall p, no_comma p = true -> split_commas p = [p]).
    { induction p as [|c p IH]; [reflexivity|].
      cbn [no_comma split_commas]. intros Hs. apply andb_prop in Hs as [Hc Hs].
      apply negb_true_iff in Hc. rewrite Hc, (IH Hs). reflexivity. }
    assert (Hcons : forall p rest, no_comma p = true ->
                      split_commas (p ++ "," ++ rest) = p :: split_commas rest).
    { induction p as [|c p IH]; intros rest Hp; [reflexivity|].
      cbn [no_comma] in Hp. apply andb_prop in Hp as [Hc Hp].
      apply negb_true_iff in Hc.
      rewrite append_String_l. cbn [split_commas]. rewrite Hc, (IH rest Hp). reflexivity. }
    induction parts as [|p ps IH]; [congruence|].
    inversion Hall as [|? ? Hp Hps]; subst.
    destruct ps as [|q ps]; [exact (Hone p Hp)|].
    change (join_commas (p :: q :: ps)) with ((p ++ "," ++ join_commas (q :: ps))%string).
    rewrite (Hcons p _ Hp), IH; [reflexivity | discriminate | exact Hps].
Qed.

Lemma split_commas_join_witness :
  split_commas "https://youtu.be/1,https://bitchute.com/vid2"
  = ["https://youtu.be/1"; "https://bitchute.com/vid2"]%string.
Proof.
  apply (proj2 (proj2 (proj2 (split_commas_join
           "" ["https://youtu.be/1"; "https://bitchute.com/vid2"]%string))));
    [discriminate | repeat constructor].
Defined.

(** ** Downloads *)

Lemma lower_app (a b : string) : lower (a ++ b) = (lower a ++ lower b)%string.
Proof.
  induction a as [|c a IH]; [reflexivity|].
  rewrite append_String_l. cbn [lower]. rewrite IH. reflexivity.
Qed.

Lemma os_path_join_suffix (a b : string) : exists pre, os_path_join a b = (pre ++ b)%string.
Proof.
  unfold os_path_join. destruct (startswith b "/"); [exists EmptyString; reflexivity|].
  destruct (String.eqb a "" || endswith a "/"); [exists a; reflexivity|].
  exists (a ++ "/")%string. symmetry. apply append_assoc.
Qed.

Section Download.
Context {downloader : Downloader}.

(** X10: what a download returns.  The paths are exactly the entries
    of the folder, after the downloader ran, whose names end in
    [.mp3] in lower case, each joined to the folder; all of them pass the
    extension test of [convert_to_432hz].  Nothing is printed, and the
    file system is as the downloader left it. *)
Theorem download_audio_returns (video_urls : list string) (output_folder : string)
        (fs fs' : FileSystem) (out : list message) (paths : list string) :
  download_audio video_urls output_folder fs = (fs', out, Ok paths) ->
  fs' = fst (ydl_download video_urls output_folder fs)
  /\ out = []
  /\ (forall p, In p paths <->
        exists name, In name (dir_entries output_folder fs')
                     /\ (exists stem, name = (stem ++ ".mp3")%string)
                     /\ p = os_path_join output_folder name)
  /\ Forall (fun p => endswith_any (lower p) SUPPORTED_FORMATS = true) paths.
Proof.
  unfold download_audio, seq_prog, os_listdir, ret.
  destruct (ydl_download video_urls output_folder fs) as [fs1 [[]|e]]; [|discriminate].
  destruct (isdir output_folder fs1); [|discriminate].
  intros [= <- <- <-]. cbn [fst].
  assert (Hchar : forall p,
             In p (map (os_path_join output_folder)
                       (List.filter (fun f => endswith f ".mp3")
                                    (dir_entries output_folder fs1)))
             <-> exists name, In name (dir_entries output_folder fs1)
                              /\ (exists stem, name = (stem ++ ".mp3")%string)
                              /\ p = os_path_join output_folder name).
  { intros p. rewrite in_map_iff. split.
    - intros (name & <- & Hin). apply filter_In in Hin as [Hin Hend].
      apply endswith_spec in Hend. exists name. auto.
    - intros (name & Hin & Hend & ->). exists name. split; [reflexivity|].
      apply filter_In. split; [exact Hin|]. apply endswith_spec. exact Hend. }
  split; [reflexivity|]. split; [reflexivity|]. split; [exact Hchar|].
  apply List.Forall_forall. intros p Hp.
  apply Hchar in Hp as (name & _ & [stem ->] & ->).
  destruct (os_path_join_suffix output_folder (stem ++ ".mp3")) as [pre ->].
  rewrite <- append_assoc, lower_app.
  unfold endswith_any, SUPPORTED_FORMATS. cbn [existsb].
  replace (endswith (lower (pre ++ stem) ++ lower ".mp3") ".mp3") with true; [reflexivity|].
  symmetry. apply endswith_spec. exists (lower (pre ++ stem)). reflexivity.
Qed.

End Download.

Lemma download_audio_returns_witness :
  download_audio (downloader := bare_downloader) ["https://youtu.be/example"%string]
                 "tmp" {| files := ∅; dirs := {["tmp"%string]} |}
  = ({| files := {["tmp/song.mp3"%string := repeat Byte.x01 8]}; dirs := {["tmp"%string]} |},
     [], Ok ["tmp/song.mp3"%string])
  /\ Forall (fun p => endswith_any (lower p) SUPPORTED_FORMATS = true)
            ["tmp/song.mp3"%string].
Proof.
  assert (Hrun : download_audio (downloader := bare_downloader)
                   ["https://youtu.be/example"%string]
                   "tmp" {| files := ∅; dirs := {["tmp"%string]} |}
                 = ({| files := {["tmp/song.mp3"%string := repeat Byte.x01 8]};
                       dirs := {["tmp"%string]} |},
                    [], Ok ["tmp/song.mp3"%string]))
    by (vm_compute; reflexivity).
  split; [exact Hrun|].
  exact (proj2 (proj2 (proj2 (download_audio_returns (downloader := bare_downloader)
                                _ _ _ _ _ _ Hrun)))).
Defined.

(** ** The command line *)

Lemma seq_prog_Ok_inv {A B : Type} (p : prog A) (k : A -> prog B)
      (fs fs' : FileSystem) (out : list message) (b : B) :
  seq_prog p k fs = (fs', out, Ok b) ->
  exists fs1 out1 a out2,
    p fs = (fs1, out1, Ok a) /\ k a fs1 = (fs', out2, Ok b) /\ out = out1 ++ out2.
Proof.
  unfold seq_prog. destruct (p fs) as [[fs1 out1] [a|e]]; [|discriminate].
  destruct (k a fs1) as [[fs2 out2] r] eqn:Hk. intros [= <- <- ->].
  exists fs1, out1, a, out2. auto.
Qed.

(** A directory that [os.rmdir] removed is gone. *)
Lemma os_rmdir_Ok (d : string) (fs fs' : FileSystem) (out : list message) (u : unit) :
  os_rmdir d fs = (fs', out, Ok u) -> isdir d fs' = false /\ files fs' = files fs.
Proof.
  unfold os_rmdir. destruct (negb (isdir d fs)); [discriminate|].
  destruct (dir_entries d fs); [|discriminate].
  intros [= <- <-]. split; [|reflexivity].
  unfold isdir. cbn [dirs]. apply bool_decide_eq_false.
  intros [_ Hn]%elem_of_difference. apply Hn, elem_of_singleton. reflexivity.
Qed.

Lemma os_rmdir_raises (d : string) (fs fs' : FileSystem) (out : list message) (e : exn) :
  os_rmdir d fs = (fs', out, Raise e) -> is_OSError e = true.
Proof.
  unfold os_rmdir. destruct (negb (isdir d fs)); [intros [= <- <- <-]; reflexivity|].
  destruct (dir_entries d fs); [discriminate | intros [= <- <- <-]; reflexivity].
Qed.

Lemma for_each_os_remove_raises (place : string -> string) (names : list string) :
  forall (fs fs' : FileSystem) (out : list message) (e : exn),
    for_each names (fun file => os_remove (place file)) fs = (fs', out, Raise e) ->
    is_OSError e = true.
Proof.
  induction names as [|name names IH]; intros fs fs' out e; cbn [for_each].
  - discriminate.
  - unfold seq_prog at 1, os_remove at 1.
    destruct (isfile (place name) fs); [|intros [= <- <- <-]; reflexivity].
    destruct (for_each names _ _) as [[fs2 out2] r2] eqn:Hrest.
    intros [= <- <- ->]. exact (IH _ _ _ _ Hrest).
Qed.

(** The cleanup of [converter.py] removes the directory or fails with
    an [OSError]. *)
Lemma cleanup_outcome (fs fs' : FileSystem) (out : list message) (r : outcome unit) :
  Converter.cleanup fs = (fs', out, r) ->
  match r with
  | Ok _ => isdir Converter.temp_dir fs' = false
  | Raise e => is_OSError e = true
  end.
Proof.
  unfold Converter.cleanup. unfold seq_prog at 1, os_listdir.
  destruct (isdir Converter.temp_dir fs); [|intros [= <- <- <-]; reflexivity].
  unfold seq_prog at 1.
  destruct (for_each _ _ fs) as [[fs1 out1] [[]|e]] eqn:Hloop.
  - destruct (os_rmdir Converter.temp_dir fs1) as [[fs2 out2] r2] eqn:Hrm.
    intros [= <- <- <-]. destruct r2 as [u|e].
    + exact (proj1 (os_rmdir_Ok _ _ _ _ _ Hrm)).
    + exact (os_rmdir_raises _ _ _ _ _ Hrm).
  - intros [= <- <- <-]. exact (for_each_os_remove_raises _ _ _ _ _ _ Hloop).
Qed.

Section UrlMode.
Context {lib : AudioLib} {M : Type} `{Magnitude M} {spectrum : Spectrum M}.
Context {codec : Codec} {downloader : Downloader} {console : Console}.

(** X11: a URL run of [converter.py] removes its download directory
    however the download and the conversions end, be it normally, with
    an exception of the downloader or of a print, or with a keyboard
    interrupt: the directory can remain only when the run ends with an
    [OSError]. *)
Theorem converter_main_removes_temp_dir (args : Args) (fs fs' : FileSystem)
        (out : list message) (r : outcome unit) :
  arg_youtube args = true ->
  Converter.main args fs = (fs', out, r) ->
  (forall e, r = Raise e -> is_OSError e = false) ->
  isdir "temp_audio_downloads" fs' = false.
Proof.
  intros Hurl. unfold Converter.main. rewrite Hurl.
  unfold seq_prog at 1, os_makedirs.
  destruct (isfile Converter.temp_dir fs).
  - intros [= <- <- <-] Hr. specialize (Hr _ eq_refl). discriminate.
  - unfold try_finally.
    destruct (seq_prog _ _ _) as [[fs1 out1] r1].
    destruct (Converter.cleanup fs1) as [[fs2 out2] r2] eqn:Hclean.
    apply cleanup_outcome in Hclean.
    destruct r2 as [u|e]; intros [= <- <- <-] Hr.
    + exact Hclean.
    + specialize (Hr _ eq_refl). congruence.
Qed.

(** X12: when a URL run of [commandconverter432.py] returns normally,
    its download directory is gone: the run ends with the [os.rmdir]
    of it. *)
Theorem commandconverter432_main_returns (args : Args) (fs fs' : FileSystem)
        (out : list message) :
  arg_youtube args = true ->
  CommandConverter432.main args fs = (fs', out, Ok tt) ->
  isdir "temp_youtube_audio" fs' = false.
Proof.
  intros Hurl. unfold CommandConverter432.main. rewrite Hurl. intros Hrun.
  apply seq_prog_Ok_inv in Hrun as (fs1 & out1 & [] & out1' & _ & Hrun & _).
  apply seq_prog_Ok_inv in Hrun as (fs2 & out2 & downloaded & out2' & _ & Hrun & _).
  apply seq_prog_Ok_inv in Hrun as (fs3 & out3 & [] & out3' & _ & Hrun & _).
  apply seq_prog_Ok_inv in Hrun as (fs4 & out4 & [] & out4' & _ & Hrun & _).
  exact (proj1 (os_rmdir_Ok _ _ _ _ _ Hrun)).
Qed.

End UrlMode.

Section LocalMode.
Context {lib : AudioLib} {M : Type} `{Magnitude M} {spectrum : Spectrum M}.
Context {codec : Codec} {downloader : Downloader} {console : Console}.

Hypothesis console_prints : forall m : message, write_fails m = None.
Hypothesis from_file_Exception :
  forall (p : string) (fs : FileSystem), raises_Exception_only (from_file p fs).
Hypothesis export_Exception :
  forall (seg : AudioSegment) (output_file target_format target_bitrate : string)
         (fs : FileSystem),
    raises_Exception_only (snd (export seg output_file target_format target_bitrate fs)).



End LocalMode.

Section BatchEdges.
Context {lib : AudioLib} {M : Type} `{Magnitude M} {spectrum : Spectrum M}.
Context {codec : Codec} {console : Console}.


End BatchEdges.

(** ** Runs on the stand-in collaborators *)


(** A run interrupted in the decoder ends with the interrupt, the
    download directory removed. *)
Lemma converter_main_removes_temp_dir_witness :
  result (converter_url_run interrupted_codec (Some "out"%string)) = Raise KeyboardInterrupt
  /\ isdir "temp_audio_downloads"
           (final_fs (converter_url_run interrupted_codec (Some "out"%string))) = false.
Proof.
  assert (Hr : result (converter_url_run interrupted_codec (Some "out"%string))
               = Raise KeyboardInterrupt) by (vm_compute; reflexivity).
  split; [exact Hr|].
  apply (converter_main_removes_temp_dir (lib := clip_lib) (spectrum := flat_Spectrum)
           (codec := interrupted_codec) (downloader := bare_downloader)
           (console := reliable_console)
           (url_args converter_py (Some "out"%string)) empty_fs
           (final_fs (converter_url_run interrupted_codec (Some "out"%string)))
           (printed_of (converter_url_run interrupted_codec (Some "out"%string)))
           (result (converter_url_run interrupted_codec (Some "out"%string)))
           eq_refl (run_eta (converter_url_run interrupted_codec (Some "out"%string)))).
  intros e He. rewrite Hr in He. injection He as <-. reflexivity.
Defined.

(** With an output folder the run of [commandconverter432.py] returns
    normally. *)
Lemma commandconverter432_main_returns_witness :
  result (cc432_url_run bare_codec (Some "out"%string)) = Ok tt
  /\ isdir "temp_youtube_audio" (final_fs (cc432_url_run bare_codec (Some "out"%string)))
     = false.
Proof.
  assert (Hr : result (cc432_url_run bare_codec (Some "out"%string)) = Ok tt)
    by (vm_compute; reflexivity).
  split; [exact Hr|].
  apply (commandconverter432_main_returns (lib := clip_lib) (spectrum := flat_Spectrum)
           (codec := bare_codec) (downloader := bare_downloader)
           (console := reliable_console)
           (url_args commandconverter432_py (Some "out"%string)) empty_fs
           (final_fs (cc432_url_run bare_codec (Some "out"%string)))
           (printed_of (cc432_url_run bare_codec (Some "out"%string)))
           eq_refl).
  rewrite <- Hr. exact (run_eta (cc432_url_run bare_codec (Some "out"%string))).
Defined.

